(** * Shopify inventory push (ecommerce_integrations/shopify/inventory.py)

    A shallow embedding of the one-way inventory push from ERPNext to
    Shopify, and the properties of its location resolver, eligibility
    filter, batch pusher, batch logger and sync orchestrator.

    Conventions of the embedding:
    - Python text is [string], one character per code point; the code
      points are those below 256, which the type [ascii] holds. Texts with
      other code points are not represented.
    - Python integers are [Z]; the stock quantities are floats, taken by
      their exact value in [Q] (the only float operation the module applies
      to them is the conversion to an integer, which is exact).
    - [None] stands for the Python value [None]; rows are [frappe._dict]
      records, for which a missing key reads as [None].
    - A call of an external collaborator either returns or raises; the
      exceptions are the subclasses of [Exception]. *)

From Stdlib Require Import QArith ZArith Lia Lqa List Ascii.
From stdpp Require Import gmap strings list fin_maps pretty.

Open Scope Z_scope.

#[local] Set Warnings "-clear-no-such-hyp".

(** ** The Python runtime the module relies on *)

Module Py.

(** Exceptions: [ResourceNotFound] (pyactiveresource) and every other
    subclass of [Exception]; the payload is what [str(e)] returns. *)
Inductive exn : Type :=
| ResourceNotFound (msg : string)
| OtherException (msg : string).

Definition str_exn (e : exn) : string :=
  match e with
  | ResourceNotFound m => m
  | OtherException m => m
  end.

Inductive result (A : Type) : Type :=
| Ok (a : A)
| Raise (e : exn).

Arguments Ok {A} a.
Arguments Raise {A} e.

Definition is_ok {A} (r : result A) : bool :=
  match r with Ok _ => true | Raise _ => false end.

(** Values kept in the warehouse mapping: the settings table stores text,
    the orchestrator passes an integer. *)
Inductive pyval : Type :=
| VNone
| VInt (z : Z)
| VStr (s : string).

(** [str(v)], as an f-string renders it. *)
Definition py_str (v : pyval) : string :=
  match v with
  | VNone => "None"
  | VInt z => pretty z
  | VStr s => s
  end.

Definition str_opt (o : option string) : string :=
  match o with
  | None => "None"
  | Some s => s
  end.

(** The value of an optional text when it is true ([None] and [''] are
    false). *)
Definition nonempty (o : option string) : option string :=
  match o with
  | Some s => if String.eqb s "" then None else Some s
  | None => None
  end.

Definition truthy (o : option string) : bool :=
  match nonempty o with Some _ => true | None => false end.

(** The value of an optional integer when it is true ([None] and [0] are
    false). *)
Definition nonzero (o : option Z) : option Z :=
  match o with
  | Some z => if z =? 0 then None else Some z
  | None => None
  end.

(** *** [int(text)] in base 10 *)

(** The blanks [int] skips around the digits: TAB..CR and SPACE, which C's
    [isspace] accepts, and of the code points from 128 on NEL (133) and
    NBSP (160), which [int] turns into a space first. The separators
    FS..US (28..31) are not among them, although [str.strip] removes
    them. *)
Definition is_space (c : ascii) : bool :=
  let n := nat_of_ascii c in
  ((9 <=? n)%nat && (n <=? 13)%nat) || (n =? 32)%nat || (n =? 133)%nat || (n =? 160)%nat.

Definition digit_of (c : ascii) : option Z :=
  let n := nat_of_ascii c in
  if ((48 <=? n)%nat && (n <=? 57)%nat)%bool then Some (Z.of_nat (n - 48)) else None.

Fixpoint drop_spaces (l : list ascii) : list ascii :=
  match l with
  | c :: rest => if is_space c then drop_spaces rest else l
  | [] => []
  end.

Definition strip (l : list ascii) : list ascii :=
  rev (drop_spaces (rev (drop_spaces l))).

(** Digits, with single underscores allowed between two digits.
    [prev] tells whether the previous character was a digit; the result is
    the value and the number of digits read. *)
Fixpoint parse_digits (prev : bool) (acc : Z) (count : nat) (l : list ascii)
  : option (Z * nat) :=
  match l with
  | [] => if prev then Some (acc, count) else None
  | c :: rest =>
      match digit_of c with
      | Some d => parse_digits true (10 * acc + d) (S count) rest
      | None =>
          if (Ascii.eqb c "_" && prev)%bool
          then parse_digits false acc count rest
          else None
      end
  end.

(** CPython refuses decimal texts of more than 4300 digits. *)
Definition int_max_str_digits : nat := 4300.

Definition parse_unsigned (l : list ascii) : option Z :=
  match parse_digits false 0 0 l with
  | Some (z, count) => if (int_max_str_digits <? count)%nat then None else Some z
  | None => None
  end.

Definition int_of_text (s : string) : option Z :=
  match strip (String.list_ascii_of_string s) with
  | "-"%char :: rest => Z.opp <$> parse_unsigned rest
  | "+"%char :: rest => parse_unsigned rest
  | l => parse_unsigned l
  end.

(** [int(v)]: [None] when the call raises ([TypeError] on [None],
    [ValueError] on a text that is not a decimal integer). *)
Definition py_int (v : pyval) : option Z :=
  match v with
  | VNone => None
  | VInt z => Some z
  | VStr s => int_of_text s
  end.

(** [frappe.utils.cint] on a float: [int(float(s))], truncation toward
    zero. *)
Definition cint (q : Q) : Z := Z.quot (Qnum q) (Z.pos (Qden q)).

(** [sub] occurs in [s]. *)
Definition contains (s sub : string) : Prop :=
  exists pre post : string, s = pre +:+ sub +:+ post.

End Py.

Import Py.

(** ** Location resolver *)

(** The part of the Shopify Setting document the resolver reads: the result
    of [get_erpnext_to_integration_wh_mapping()], a dict or [None]. *)
Record Setting : Type := {
  get_erpnext_to_integration_wh_mapping : option (gmap string pyval)
}.

Definition _get_numeric_location_id (setting : Setting) (default_wh : option string)
  : result Z :=
  let erp_to_shop := default ∅ (get_erpnext_to_integration_wh_mapping setting) in
  (* the test [not default_wh or default_wh not in erp_to_shop] and the
     subscript [erp_to_shop[default_wh]] that follows it *)
  match (if truthy default_wh then erp_to_shop !! str_opt default_wh else None) with
  | None =>
      Raise (OtherException
               ("No Shopify Location mapping for Default Warehouse: " +:+ str_opt default_wh))
  | Some v =>
      match py_int v with
      | Some n => Ok n
      | None =>
          Raise (OtherException
                   ("Shopify Location ID must be numeric. Got '" +:+ py_str v +:+
                    "' for '" +:+ str_opt default_wh +:+ "'."))
      end
  end.

(** ** State and exceptions *)

(** A computation over a state [S] that returns or raises; what it did to
    the state before raising stays done. *)
Definition M (S A : Type) : Type := S -> S * result A.

Global Instance M_ret {S} : MRet (M S) := fun A a s => (s, Ok a).

Global Instance M_bind {S} : MBind (M S) := fun A B f m s =>
  match m s with
  | (s', Ok a) => f a s'
  | (s', Raise e) => (s', Raise e)
  end.

(** [try: body except Exception as e: handler e] *)
Definition try_except {S A} (body : M S A) (handler : exn -> M S A) : M S A :=
  fun s =>
    match body s with
    | (s', Ok a) => (s', Ok a)
    | (s', Raise e) => handler e s'
    end.

(** [for x in l: body], the elements being objects the body may mutate:
    the loop stops at the first exception that leaves the body. *)
Fixpoint for_each {S X} (body : M (X * S) unit) (l : list X) (s : S)
  : (list X * S) * result unit :=
  match l with
  | [] => (([], s), Ok tt)
  | x :: rest =>
      match body (x, s) with
      | ((x', s'), Ok _) =>
          let '((rest', s''), r) := for_each body rest s' in
          ((x' :: rest', s''), r)
      | ((x', s'), Raise e) => ((x' :: rest, s'), Raise e)
      end
  end.

(** ** Data model *)

(** An inventory row, as [get_inventory_levels] returns it (a
    [frappe._dict] built from the columns of its query), with the
    attributes the pusher sets. On such a record [d.x] and
    [getattr(d, "x", default)] both read the key [x] and give [None] when
    it is missing: the default of [getattr] is never used. The warehouse and
    the quantities are columns of the stock ledger and always present. *)
Record Row : Type := {
  ecom_item : option string;
  warehouse : string;
  actual_qty : Q;
  reserved_qty : Q;
  variant_id : option string;
  shopify_location_id : option Z;
  status : option string;
  failure_reason : option string
}.

Definition set_shopify_location_id (v : Z) (d : Row) : Row :=
  {| ecom_item := ecom_item d; warehouse := warehouse d;
     actual_qty := actual_qty d; reserved_qty := reserved_qty d;
     variant_id := variant_id d; shopify_location_id := Some v;
     status := status d; failure_reason := failure_reason d |}.

Definition set_status (v : string) (d : Row) : Row :=
  {| ecom_item := ecom_item d; warehouse := warehouse d;
     actual_qty := actual_qty d; reserved_qty := reserved_qty d;
     variant_id := variant_id d; shopify_location_id := shopify_location_id d;
     status := Some v; failure_reason := failure_reason d |}.

Definition set_failure_reason (v : string) (d : Row) : Row :=
  {| ecom_item := ecom_item d; warehouse := warehouse d;
     actual_qty := actual_qty d; reserved_qty := reserved_qty d;
     variant_id := variant_id d; shopify_location_id := shopify_location_id d;
     status := status d; failure_reason := Some v |}.

(** The Shopify variant resource, by the attribute the pusher reads. *)
Record Variant : Type := { inventory_item_id : option Z }.

(** ** External collaborators *)

(** The calls the pusher makes, in order, each with its arguments and
    whether it returned ([true]) or raised ([false]). *)
Inductive event : Type :=
| EvFind (variant_id : string) (returned : bool)
| EvSet (location_id : option Z) (inventory_item_id available : Z) (returned : bool)
| EvSync (ecom_item : option string) (time : string) (returned : bool)
| EvCommit (returned : bool)
| EvLog (status message : string) (returned : bool).

(** The collaborators act on a world [W] of their own (the remote shop, the
    local database, the clock); any behaviour is a choice of these
    functions. *)
Class Collaborators (W : Type) : Type := {
  now : W -> string;
  Variant_find : string -> W -> W * result Variant;
  InventoryLevel_set : option Z -> Z -> Z -> W -> W * result unit;
  update_inventory_sync_status : option string -> string -> W -> W * result unit;
  db_commit : W -> W * result unit;
  create_shopify_log : string -> string -> string -> W -> W * result unit
}.

(** The text Python prints for the float the logger computes, as a function
    of the exact value of that float's operands. *)
Class FloatFormat : Type := float_str : Q -> string.

Record ext_state (W : Type) : Type := { world : W; calls : list event }.

Arguments world {W} _.
Arguments calls {W} _.

Definition nl : string := String (ascii_of_nat 10) "".

(** [collections.Counter] *)
Definition Counter (l : list (option string)) : gmap (option string) nat :=
  foldl (fun m x => <[ x := S (default 0%nat (m !! x)) ]> m) ∅ l.

(** [frappe.utils.create_batch]: the slices
    [iterable[i : min(i + size, total_count)]] for [i] in
    [range(0, total_count, size)]. *)
Definition range_step (stop step : nat) : list nat :=
  (fun k => k * step)%nat <$> seq 0 ((stop + step - 1) / step)%nat.

Definition slice {A} (l : list A) (i j : nat) : list A :=
  take (j - i) (drop i l).

Definition create_batch {A} (iterable : list A) (size : nat) : list (list A) :=
  let total_count := length iterable in
  (fun i => slice iterable i (Nat.min (i + size) total_count))
    <$> range_step total_count size.

(** ** Batch pusher and batch logger *)

Section Pusher.

Context {W : Type} `{!Collaborators W} `{!FloatFormat}.

(** A collaborator call, recorded. *)
Definition call {A} (f : W -> W * result A) (ev : bool -> event) : M (ext_state W) A :=
  fun s =>
    let (w', r) := f (world s) in
    ({| world := w'; calls := calls s ++ [ev (is_ok r)] |}, r).

(** The row being processed sits next to the collaborators' state. *)
Definition lift {A} (m : M (ext_state W) A) : M (Row * ext_state W) A :=
  fun '(d, s) => let (s', r) := m s in ((d, s'), r).

Definition get_row : M (Row * ext_state W) Row :=
  fun '(d, s) => ((d, s), Ok d).

Definition set_attr (f : Row -> Row) : M (Row * ext_state W) unit :=
  fun '(d, s) => ((f d, s), Ok tt).

Definition sync_status (ecom_item : option string) (time : string) : M (ext_state W) unit :=
  call (update_inventory_sync_status ecom_item time) (EvSync ecom_item time).

Definition commit : M (ext_state W) unit := call db_commit EvCommit.

(** [_log], with its default [method]; the [request_data] it passes is
    empty for every caller in this module. *)
Definition _log (status message : string) : M (ext_state W) unit :=
  call (create_shopify_log status message "update_inventory_on_shopify")
       (EvLog status message).

Definition _commit_row_and_continue (synced_on : string) : M (Row * ext_state W) unit :=
  try_except
    (d ← get_row;
     if truthy (ecom_item d)
     then lift (sync_status (ecom_item d) synced_on)
     else mret tt)
    (fun _ => mret tt);;
  lift commit.

(** One line of the per-row summary; an f-string renders [None] as
    ["None"], and [failure_reason or ''] turns [None] into the empty
    text. *)
Definition row_line (d : Row) : string :=
  str_opt (variant_id d) +:+ "," +:+
  from_option pretty "None" (shopify_location_id d) +:+ "," +:+
  str_opt (status d) +:+ "," +:+
  default "" (failure_reason d).

(** [pct], by its exact value. The source divides two floats; rounding
    the quotient of two counts cannot move it across 0 or 1, the two values
    it is compared with. *)
Definition success_fraction (inventory_levels : list Row) : Q :=
  let statuses := status <$> inventory_levels in
  let stats := Counter statuses in
  let total := Nat.max (length inventory_levels) 1 in
  inject_Z (Z.of_nat (default 0%nat (stats !! Some "Success")))
  / inject_Z (Z.of_nat total).

Definition batch_status (pct : Q) : string :=
  if Qeq_bool pct 1 then "Success"
  else if negb (Qle_bool pct 0) then "Partial Success"
  else "Failed".

Definition _log_batch_status (inventory_levels : list Row) : M (ext_state W) unit :=
  let log_message :=
    "variant_id,location_id,status,failure_reason" +:+ nl +:+
    String.concat nl (row_line <$> inventory_levels) in
  let pct := success_fraction inventory_levels in
  let status := batch_status pct in
  _log status
       ("Updated " +:+ float_str (pct * 100) +:+ "% items" +:+ nl +:+ nl +:+ log_message).

Definition not_found_reason (d : Row) : string :=
  "Variant or Location not found. variant_id=" +:+ str_opt (variant_id d) +:+
  " loc=" +:+ from_option pretty "None" (shopify_location_id d).

(** How the [try] block of a row is left: falling through to the commit
    that ends the loop body, or by [continue]. *)
Inductive flow : Type := Next | Continue.

(** The statements of the second [try] block. *)
Definition push_row (synced_on : string) : M (Row * ext_state W) flow :=
  d ← get_row;
  match nonempty (variant_id d) with
  | None =>
      set_attr (set_status "Failed");;
      set_attr (set_failure_reason "Missing variant_id in Ecommerce Item mapping.");;
      _commit_row_and_continue synced_on;;
      mret Continue
  | Some vid =>
      variant ← lift (call (Variant_find vid) (EvFind vid));
      match nonzero (inventory_item_id variant) with
      | None =>
          set_attr (set_status "Failed");;
          set_attr (set_failure_reason
                      ("Shopify variant " +:+ vid +:+ " has no inventory_item_id."));;
          _commit_row_and_continue synced_on;;
          mret Continue
      | Some item =>
          let available := cint (actual_qty d) - cint (reserved_qty d) in
          lift (call (InventoryLevel_set (shopify_location_id d) item available)
                     (EvSet (shopify_location_id d) item available));;
          lift (sync_status (ecom_item d) synced_on);;
          set_attr (set_status "Success");;
          mret Next
      end
  end.

(** Its two [except] clauses. *)
Definition push_row_handler (synced_on : string) (e : exn) : M (Row * ext_state W) flow :=
  match e with
  | ResourceNotFound _ =>
      d ← get_row;
      lift (sync_status (ecom_item d) synced_on);;
      set_attr (set_status "Not Found");;
      d ← get_row;
      set_attr (set_failure_reason (not_found_reason d));;
      mret Next
  | OtherException _ =>
      set_attr (set_status "Failed");;
      set_attr (set_failure_reason (str_exn e));;
      mret Next
  end.

(** The body of the loop over the rows of a batch. *)
Definition process_row (synced_on : string) (warehouse_map : gmap string pyval)
  : M (Row * ext_state W) unit :=
  d ← get_row;
  match warehouse_map !! warehouse d ≫= py_int with
  | None =>
      set_attr (set_status "Failed");;
      set_attr (set_failure_reason
                  ("No numeric Shopify Location for ERP Warehouse: " +:+ warehouse d));;
      _commit_row_and_continue synced_on
  | Some location =>
      set_attr (set_shopify_location_id location);;
      fl ← try_except (push_row synced_on) (push_row_handler synced_on);
      match fl with
      | Continue => mret tt
      | Next => lift commit
      end
  end.

(** The body of the loop over the batches. *)
Definition process_batch (synced_on : string) (warehouse_map : gmap string pyval)
  : M (list Row * ext_state W) unit :=
  fun '(batch, s) =>
    match for_each (process_row synced_on warehouse_map) batch s with
    | ((batch', s'), Ok _) =>
        let (s'', r) := _log_batch_status batch' s' in ((batch', s''), r)
    | (st, Raise e) => (st, Raise e)
    end.

(** The function returns nothing; the rows it has mutated are given back,
    batch by batch, next to the collaborators' state. The rows of a run are
    distinct objects. The session that the decorator [temp_shopify_session]
    opens around the call is not part of the model. *)
Definition upload_inventory_data_to_shopify
    (inventory_levels : list Row) (warehouse_map : gmap string pyval)
    (s : ext_state W) : (list (list Row) * ext_state W) * result unit :=
  let synced_on := now (world s) in
  for_each (process_batch synced_on warehouse_map) (create_batch inventory_levels 50) s.

(** The calls of the [try] block up to the one that raises, on the path
    of a row that has a variant id and whose variant has an inventory item
    id: the variant lookup, the inventory-level set, the sync-status update
    that follows it. [w] is the collaborators' world before, the last
    argument their world after. *)
Inductive raised (synced_on : string) (d : Row) (w : W)
  : list event -> exn -> W -> Prop :=
| raised_find vid w1 e :
    nonempty (variant_id d) = Some vid ->
    Variant_find vid w = (w1, Raise e) ->
    raised synced_on d w [EvFind vid false] e w1
| raised_set vid w1 variant item w2 e :
    nonempty (variant_id d) = Some vid ->
    Variant_find vid w = (w1, Ok variant) ->
    nonzero (inventory_item_id variant) = Some item ->
    InventoryLevel_set (shopify_location_id d) item
      (cint (actual_qty d) - cint (reserved_qty d)) w1 = (w2, Raise e) ->
    raised synced_on d w
      [EvFind vid true;
       EvSet (shopify_location_id d) item
             (cint (actual_qty d) - cint (reserved_qty d)) false] e w2
| raised_sync vid w1 variant item w2 w3 e :
    nonempty (variant_id d) = Some vid ->
    Variant_find vid w = (w1, Ok variant) ->
    nonzero (inventory_item_id variant) = Some item ->
    InventoryLevel_set (shopify_location_id d) item
      (cint (actual_qty d) - cint (reserved_qty d)) w1 = (w2, Ok tt) ->
    update_inventory_sync_status (ecom_item d) synced_on w2 = (w3, Raise e) ->
    raised synced_on d w
      [EvFind vid true;
       EvSet (shopify_location_id d) item
             (cint (actual_qty d) - cint (reserved_qty d)) true;
       EvSync (ecom_item d) synced_on false] e w3.

(** The shape of a run that returns: the calls of a row end with its one
    local commit that took effect; the calls of a batch are those of its
    rows, one row after the other, and then one log entry. *)
Definition before_commit (e : event) : bool :=
  match e with
  | EvCommit true => false
  | EvLog _ _ _ => false
  | _ => true
  end.

Definition one_commit_at_end (seg : list event) : Prop :=
  exists pre : list event,
    seg = pre ++ [EvCommit true] /\ forallb before_commit pre = true.

Definition row_segment (synced_on : string) (warehouse_map : gmap string pyval)
    (d : Row) (seg : list event) : Prop :=
  (exists s0 d' s1,
      process_row synced_on warehouse_map (d, s0) = ((d', s1), Ok tt) /\
      calls s1 = calls s0 ++ seg) /\
  one_commit_at_end seg.

Definition batch_segment (synced_on : string) (warehouse_map : gmap string pyval)
    (batch : list Row) (seg : list event) : Prop :=
  exists (segs : list (list event)) (st msg : string),
    Forall2 (row_segment synced_on warehouse_map) batch segs /\
    seg = concat segs ++ [EvLog st msg true].

End Pusher.

(** ** Eligibility filter *)

(** The two tables the filter reads, keyed by document name, with the
    columns its queries mention. *)
Record EcommerceItem : Type := {
  integration : string;
  erpnext_item_code : option string
}.

Record Item : Type := {
  custom_sync_to_shopify : Z;
  disabled : Z
}.

Record Database : Type := {
  tabEcommerce_Item : gmap string EcommerceItem;
  tabItem : gmap string Item
}.

(** The queries sent to the database. *)
Inductive query : Type :=
| QEcommerceItem (names : list string) (integration : string)
| QItem (names : list string).

(** [frappe.get_all("Ecommerce Item", filters={"name": ["in", names],
    "integration": integ}, fields=["name", "erpnext_item_code"])] *)
Definition get_all_Ecommerce_Item (db : Database) (names : list string) (integ : string)
  : list (string * option string) :=
  (fun p => (p.1, erpnext_item_code p.2))
    <$> filter (fun p => p.1 ∈ names ∧ integration p.2 = integ)
               (map_to_list (tabEcommerce_Item db)).

(** [frappe.get_all("Item", filters={"name": ["in", names],
    "custom_sync_to_shopify": 1, "disabled": 0}, pluck="name")] *)
Definition get_all_Item (db : Database) (names : list string) : list string :=
  fst <$> filter (fun p => p.1 ∈ names ∧ custom_sync_to_shopify p.2 = 1 ∧ disabled p.2 = 0)
                 (map_to_list (tabItem db)).

Section Filter.

Variable MODULE_NAME : string.

Definition _filter_to_flagged_items (db : Database) (inventory_levels : list Row)
  : list query * list Row :=
  match inventory_levels with
  | [] => ([], [])
  | _ =>
      let ecom_names := omap (fun d => nonempty (ecom_item d)) inventory_levels in
      match ecom_names with
      | [] => ([], [])
      | _ =>
          let ecom_rows := get_all_Ecommerce_Item db ecom_names MODULE_NAME in
          let ecom_to_item : gmap string string :=
            foldl (fun m r =>
                     match nonempty r.2 with
                     | Some code => <[ r.1 := code ]> m
                     | None => m
                     end) ∅ ecom_rows in
          let values := snd <$> map_to_list ecom_to_item in
          let allowed_items : gset string := list_to_set (get_all_Item db values) in
          let filtered :=
            foldl (fun filtered d =>
                     match ecom_item d ≫= (ecom_to_item !!.) with
                     | Some erp_item =>
                         if bool_decide (erp_item ∈ allowed_items)
                         then filtered ++ [d]
                         else filtered
                     | None => filtered
                     end) [] inventory_levels in
          ([QEcommerceItem ecom_names MODULE_NAME; QItem values], filtered)
      end
  end.

(** The rows the specification keeps: the ecom-item reference resolves,
    within the integration, to an item code, and that item is sync-enabled
    and not disabled. *)
Definition eligible (db : Database) (d : Row) : bool :=
  match nonempty (ecom_item d) ≫= (tabEcommerce_Item db !!.) with
  | Some ei =>
      bool_decide (integration ei = MODULE_NAME) &&
      match nonempty (erpnext_item_code ei) ≫= (tabItem db !!.) with
      | Some it =>
          bool_decide (custom_sync_to_shopify it = 1) && bool_decide (disabled it = 0)
      | None => false
      end
  | None => false
  end.

End Filter.

(** ** Concrete collaborators, for running the pusher

    The world is the number of local commits that will still fail; the
    remote calls answer by their arguments. *)

Definition demo_find {W} (vid : string) (w : W) : W * result Variant :=
  if String.eqb vid "gone" then (w, Raise (ResourceNotFound "404 Not Found"))
  else if String.eqb vid "broken" then (w, Raise (OtherException "502 Bad Gateway"))
  else if String.eqb vid "bare" then (w, Ok {| inventory_item_id := None |})
  else (w, Ok {| inventory_item_id := Some 11 |}).

Definition demo_set {W} (location_id : option Z) (item available : Z) (w : W)
  : W * result unit :=
  match location_id with
  | Some 404 => (w, Raise (ResourceNotFound "404 Not Found"))
  | Some 500 => (w, Raise (OtherException "500 Internal Server Error"))
  | _ => (w, Ok tt)
  end.

Definition demo_sync {W} (ecom_item : option string) (time : string) (w : W)
  : W * result unit :=
  match ecom_item with
  | Some "locked" => (w, Raise (OtherException "row locked"))
  | _ => (w, Ok tt)
  end.

Definition demo_commit (w : nat) : nat * result unit :=
  match w with
  | O => (O, Ok tt)
  | S n => (n, Raise (OtherException "db down"))
  end.

Definition demo : Collaborators nat := {|
  now := fun _ => "2024-05-01 10:00:00";
  Variant_find := demo_find;
  InventoryLevel_set := demo_set;
  update_inventory_sync_status := demo_sync;
  db_commit := demo_commit;
  create_shopify_log := fun _ _ _ w => (w, Ok tt)
|}.

(** Collaborators whose local side never fails: the remote calls answer as
    above, the sync-status update and the commit return. *)
Definition steady : Collaborators unit := {|
  now := fun _ => "2024-05-01 10:00:00";
  Variant_find := demo_find;
  InventoryLevel_set := demo_set;
  update_inventory_sync_status := fun _ _ w => (w, Ok tt);
  db_commit := fun w => (w, Ok tt);
  create_shopify_log := fun _ _ _ w => (w, Ok tt)
|}.

(** A rendering of floats that is right on whole numbers. *)
Definition demo_float : FloatFormat :=
  fun q => pretty (Qnum q `quot` Z.pos (Qden q)) +:+ ".0".

Definition mk_row (ecom wh : string) (actual reserved : Q) (vid : option string) : Row :=
  {| ecom_item := nonempty (Some ecom); warehouse := wh;
     actual_qty := actual; reserved_qty := reserved; variant_id := vid;
     shopify_location_id := None; status := None; failure_reason := None |}.

Definition start {W} (w : W) : ext_state W := {| world := w; calls := [] |}.

(** Inputs: the map of the orchestrator, and rows that take the paths of
    the pusher. *)
Definition demo_map : gmap string pyval := {[ "WH" := VInt 5 ]}.

Definition row_pushed : Row := mk_row "E1" "WH" 10.7 3 (Some "v1").
Definition row_gone : Row := mk_row "E2" "WH" 4 1 (Some "gone").
Definition row_broken : Row := mk_row "E3" "WH" 4 1 (Some "broken").
Definition row_unmapped : Row := mk_row "locked" "XX" 4 1 (Some "v4").
Definition row_no_variant : Row := mk_row "E5" "WH" 4 1 None.
Definition row_no_reference : Row := mk_row "" "XX" 4 1 (Some "v6").

(** A location the shop does not know. *)
Definition lost_map : gmap string pyval := {[ "WH" := VStr "404" ]}.

(** A logged batch. *)
Definition with_status (st : string) : Row := set_status st row_pushed.

Definition logged_batch : list Row :=
  [with_status "Success"; with_status "Success";
   with_status "Failed"; with_status "Success"].

(** A database: two items, one of them disabled, and four ecom items, one
    of another integration and one without an item code. *)
Definition demo_db : Database := {|
  tabEcommerce_Item :=
    {[ "E1" := {| integration := "shopify"; erpnext_item_code := Some "ITEM-1" |};
       "E2" := {| integration := "shopify"; erpnext_item_code := Some "ITEM-2" |};
       "E3" := {| integration := "unicommerce"; erpnext_item_code := Some "ITEM-1" |};
       "E5" := {| integration := "shopify"; erpnext_item_code := None |} ]};
  tabItem :=
    {[ "ITEM-1" := {| custom_sync_to_shopify := 1; disabled := 0 |};
       "ITEM-2" := {| custom_sync_to_shopify := 1; disabled := 1 |} ]}
|}.

(** ** Sync orchestrator *)

(** The Shopify Setting document, by what the orchestrator reads of it:
    the answers of its methods [get_erpnext_to_integration_wh_mapping()] and
    [is_enabled()], the check field
    [update_erpnext_stock_levels_to_shopify] and the field [warehouse]. *)
Module ShopifySetting.

Record doc : Type := {
  mapping : Setting;
  is_enabled : bool;
  update_erpnext_stock_levels_to_shopify : Z;
  warehouse : option string
}.

End ShopifySetting.

(** The collaborators of the orchestrator, over the same world: the
    settings document, the run-frequency gate, the inventory query, the
    tables the filter reads, and the session that the decorator
    [temp_shopify_session] puts around the pusher. *)
Class Site (W : Type) : Type := {
  get_doc : W -> W * result ShopifySetting.doc;
  need_to_run : W -> W * result bool;
  get_inventory_levels : list string -> string -> W -> W * result (list Row);
  database : W -> Database;
  temp_shopify_session : M (ext_state W) unit -> M (ext_state W) unit
}.

Section Orchestrator.

Context {W : Type} `{!Collaborators W} `{!FloatFormat} `{!Site W}.

Variable MODULE_NAME : string.

(** A call of the site that answers; the calls recorded stay those of the
    pusher and of the log. *)
Definition ask {A} (f : W -> W * result A) : M (ext_state W) A :=
  fun s => let (w', r) := f (world s) in ({| world := w'; calls := calls s |}, r).

(** The pusher, as its caller sees it: it returns nothing. *)
Definition push (inventory_levels : list Row) (warehouse_map : gmap string pyval)
  : M (ext_state W) unit :=
  fun s =>
    let '((_, s'), r) := upload_inventory_data_to_shopify inventory_levels warehouse_map s in
    (s', r).

Definition _run_push_for_default_warehouse (setting : ShopifySetting.doc)
  : M (ext_state W) unit :=
  if negb (ShopifySetting.is_enabled setting)
     || (ShopifySetting.update_erpnext_stock_levels_to_shopify setting =? 0)
  then mret tt
  else
    let default_wh := ShopifySetting.warehouse setting in
    if negb (truthy default_wh) then
      _log "Error" "Default Warehouse is not set on Shopify Setting (field: warehouse)."
    else
      match _get_numeric_location_id (ShopifySetting.mapping setting) default_wh with
      | Raise e => _log "Error" (str_exn e)
      | Ok location_id =>
          inventory_levels ← ask (get_inventory_levels [str_opt default_wh] MODULE_NAME);
          match inventory_levels with
          | [] =>
              _log "Success"
                   ("No inventory rows found for Default Warehouse: " +:+ str_opt default_wh)
          | _ =>
              fun s =>
                let inventory_levels :=
                  (_filter_to_flagged_items MODULE_NAME (database (world s))
                                            inventory_levels).2 in
                match inventory_levels with
                | [] =>
                    _log "Success"
                         "No flagged items to sync (custom_sync_to_shopify=1 & not disabled)." s
                | _ =>
                    temp_shopify_session
                      (push inventory_levels {[ str_opt default_wh := VInt location_id ]}) s
                end
          end
      end.

Definition update_inventory_on_shopify : M (ext_state W) unit :=
  setting ← ask get_doc;
  due ← ask need_to_run;
  if negb due then mret tt else _run_push_for_default_warehouse setting.

Definition update_inventory_on_shopify_now : M (ext_state W) unit :=
  setting ← ask get_doc;
  _run_push_for_default_warehouse setting.

End Orchestrator.

(** ** What a run leaves behind *)

(** The attributes of a row that the pusher reads and never writes. *)
Definition same_input (d d' : Row) : Prop :=
  ecom_item d' = ecom_item d /\ warehouse d' = warehouse d /\
  actual_qty d' = actual_qty d /\ reserved_qty d' = reserved_qty d /\
  variant_id d' = variant_id d.

(** Kinds of calls, for counting them. *)
Definition is_find (e : event) : bool :=
  match e with EvFind _ _ => true | _ => false end.

Definition is_set (e : event) : bool :=
  match e with EvSet _ _ _ _ => true | _ => false end.

Definition is_taken_commit (e : event) : bool :=
  match e with EvCommit true => true | _ => false end.

Definition is_log (e : event) : bool :=
  match e with EvLog _ _ _ => true | _ => false end.

Definition is_commit (e : event) : bool :=
  match e with EvCommit _ => true | _ => false end.

Definition count (p : event -> bool) (l : list event) : nat :=
  length (filter (fun e => p e) l).

(** The calls of one row: no log entry; at most one variant lookup, for
    the variant id of the row; at most one inventory-level set call, and it
    comes after a lookup that returned. *)
Definition row_calls (d : Row) (seg : list event) : Prop :=
  Forall (fun e => is_log e = false) seg /\
  (count is_find seg <= 1)%nat /\
  (count is_set seg <= 1)%nat /\
  (forall vid ok, EvFind vid ok ∈ seg -> variant_id d = Some vid) /\
  (forall j l i a ok,
      seg !! j = Some (EvSet l i a ok) ->
      exists k vid, (k < j)%nat /\ seg !! k = Some (EvFind vid true)).

(** ** More concrete collaborators *)

(** Collaborators that never fail: every variant has the inventory item
    11. *)
Definition ideal : Collaborators unit := {|
  now := fun _ => "2024-05-01 10:00:00";
  Variant_find := fun _ w => (w, Ok {| inventory_item_id := Some 11 |});
  InventoryLevel_set := fun _ _ _ w => (w, Ok tt);
  update_inventory_sync_status := fun _ _ w => (w, Ok tt);
  db_commit := fun w => (w, Ok tt);
  create_shopify_log := fun _ _ _ w => (w, Ok tt)
|}.

(** A site whose world is its inventory query's answer: the settings are
    [demo_doc], the gate says the run is due when there are rows, the
    tables are [demo_db], and the session lets the pusher through. *)
Definition demo_setting : Setting :=
  {| get_erpnext_to_integration_wh_mapping := Some {[ "WH" := VStr "5" ]} |}.

Definition demo_doc : ShopifySetting.doc := {|
  ShopifySetting.mapping := demo_setting;
  ShopifySetting.is_enabled := true;
  ShopifySetting.update_erpnext_stock_levels_to_shopify := 1;
  ShopifySetting.warehouse := Some "WH"
|}.

(** Rows whose sync-status update raises: one whose variant the shop does
    not know, one that reaches the inventory-level set call. *)
Definition row_gone_locked : Row := mk_row "locked" "WH" 4 1 (Some "gone").
Definition row_set_locked : Row := mk_row "locked" "WH" 4 1 (Some "v1").

(** The same settings with another default warehouse. *)
Definition doc_with_warehouse (wh : option string) : ShopifySetting.doc := {|
  ShopifySetting.mapping := demo_setting;
  ShopifySetting.is_enabled := true;
  ShopifySetting.update_erpnext_stock_levels_to_shopify := 1;
  ShopifySetting.warehouse := wh
|}.

Definition demo_shop : Collaborators (list Row) := {|
  now := fun _ => "2024-05-01 10:00:00";
  Variant_find := demo_find;
  InventoryLevel_set := demo_set;
  update_inventory_sync_status := demo_sync;
  db_commit := fun w => (w, Ok tt);
  create_shopify_log := fun _ _ _ w => (w, Ok tt)
|}.

Definition demo_site : Site (list Row) := {|
  get_doc := fun w => (w, Ok demo_doc);
  need_to_run := fun w => (w, Ok (negb (bool_decide (w = []))));
  get_inventory_levels := fun _ _ w => (w, Ok w);
  database := fun _ => demo_db;
  temp_shopify_session := fun m => m
|}.

(** * Properties *)

(** ** Text *)

Lemma append_nil_r (s : string) : s +:+ "" = s.
Proof.
  induction s as [|c s IH]; [done|].
  change (String c (s +:+ "") = String c s). by rewrite IH.
Qed.

Lemma append_assoc (s t u : string) : (s +:+ t) +:+ u = s +:+ (t +:+ u).
Proof.
  induction s as [|c s IH]; [done|].
  change (String c ((s +:+ t) +:+ u) = String c (s +:+ (t +:+ u))). by rewrite IH.
Qed.

Lemma contains_refl (s : string) : contains s s.
Proof. exists "", "". by rewrite append_nil_r. Qed.

Lemma contains_app_l (s t sub : string) : contains s sub -> contains (s +:+ t) sub.
Proof.
  intros (pre & post & ->). exists pre, (post +:+ t).
  by rewrite !append_assoc.
Qed.

Lemma contains_app_r (s t sub : string) : contains t sub -> contains (s +:+ t) sub.
Proof.
  intros (pre & post & ->). exists (s +:+ pre), post.
  by rewrite !append_assoc.
Qed.

Create HintDb text discriminated.
#[global] Hint Resolve contains_refl contains_app_l contains_app_r : text.

(** [cint] truncates toward zero: it never moves away from zero and stays
    within one unit of the quantity. *)
Lemma cint_truncates (q : Q) :
  (0 <= q -> inject_Z (cint q) <= q < inject_Z (cint q) + 1)%Q /\
  (q <= 0 -> inject_Z (cint q) - 1 < q <= inject_Z (cint q))%Q.
Proof.
  destruct q as [n p]. unfold cint, Qle, Qlt, inject_Z. cbn.
  rewrite ?Pos.mul_1_r.
  pose proof (Z.quot_rem' n (Z.pos p)) as Hqr.
  pose proof (Z.rem_bound_pos_pos n (Z.pos p)) as Hpos.
  pose proof (Z.rem_bound_pos_neg n (Z.pos p)) as Hneg.
  generalize dependent (n `quot` Z.pos p). generalize dependent (n `rem` Z.pos p).
  intros r Hpos Hneg k Hqr. split; intros Hs; split; lia.
Qed.

(** ** Location resolver *)

Lemma nonempty_Some (o : option string) (s : string) :
  nonempty o = Some s <-> o = Some s /\ s <> "".
Proof.
  destruct o as [t|]; simpl; [|naive_solver].
  destruct (String.eqb_spec t ""); naive_solver.
Qed.

Lemma truthy_true (o : option string) :
  truthy o = true <-> exists s, o = Some s /\ s <> "".
Proof.
  unfold truthy. destruct (nonempty o) as [s|] eqn:E.
  - apply nonempty_Some in E. naive_solver.
  - split; [done|]. intros (s & -> & Hs).
    assert (nonempty (Some s) = Some s) as E' by (by apply nonempty_Some).
    congruence.
Qed.

(** C1. The location resolver returns the integer parse of the value mapped
    to the default warehouse exactly when the default warehouse is set
    (neither [None] nor empty), present in the mapping, and its value
    parses as an integer; it raises exactly when the default warehouse is
    unset, absent from the mapping, or its value does not parse; the
    message of the error names the warehouse and, when the value does not
    parse, the value. *)
Theorem get_numeric_location_id_spec (setting : Setting) (default_wh : option string) :
  let erp_to_shop := default ∅ (get_erpnext_to_integration_wh_mapping setting) in
  (forall n : Z,
      _get_numeric_location_id setting default_wh = Ok n <->
      exists wh v, default_wh = Some wh /\ wh <> "" /\
                   erp_to_shop !! wh = Some v /\ py_int v = Some n) /\
  ((exists e, _get_numeric_location_id setting default_wh = Raise e) <->
      truthy default_wh = false \/
      erp_to_shop !! str_opt default_wh = None \/
      exists v, erp_to_shop !! str_opt default_wh = Some v /\ py_int v = None) /\
  (forall e, _get_numeric_location_id setting default_wh = Raise e ->
      contains (str_exn e) (str_opt default_wh) /\
      forall v, truthy default_wh = true ->
                erp_to_shop !! str_opt default_wh = Some v ->
                contains (str_exn e) (py_str v)).
Proof.
  intros erp_to_shop. unfold _get_numeric_location_id. fold erp_to_shop.
  destruct (truthy default_wh) eqn:Ht.
  - apply truthy_true in Ht as (wh & -> & Hwh). simpl.
    destruct (erp_to_shop !! wh) as [v|] eqn:Hv.
    + destruct (py_int v) as [n|] eqn:Hn.
      * split_and!; [|naive_solver..]. intros n'. split; [|naive_solver].
        intros [= <-]. eauto 10.
      * split_and!.
        -- intros n. split; [done | naive_solver].
        -- split; eauto.
        -- intros e [= <-]. simpl. split; [auto 10 with text|].
           intros v' _ [= <-]. auto 10 with text.
    + split_and!.
      * intros n. split; [done | naive_solver].
      * split; eauto.
      * intros e [= <-]. simpl. split; [auto with text | done].
  - split_and!.
    + intros n. split; [done|]. intros (wh & v & -> & Hwh & _).
      assert (truthy (Some wh) = true) by (apply truthy_true; eauto). congruence.
    + split; eauto.
    + intros e [= <-]. simpl. split; [auto with text | done].
Qed.

(** The blanks of [int], one by one. *)
Lemma is_space_spec (c : ascii) :
  is_space c = true <-> nat_of_ascii c ∈ [9; 10; 11; 12; 13; 32; 133; 160]%nat.
Proof.
  rewrite <- (ascii_nat_embedding c) at 1.
  pose proof (nat_ascii_bounded c) as Hc.
  generalize dependent (nat_of_ascii c). intros n Hn.
  do 256 (destruct n as [|n];
          [ vm_compute; split;
            [ intros ?; try discriminate; set_solver
            | intros ?; try reflexivity; set_solver ]
          |]).
  lia.
Qed.

(** The example of the specification, read off the theorem, and the
    resolver on other values of the mapping: blanks around the digits, a
    sign and an underscore between digits are read; a separator next to
    the digits, a text that is no integer and [None] are refused, the
    message quoting the value. *)
Lemma get_numeric_location_id_example :
  let resolve v :=
    _get_numeric_location_id
      {| get_erpnext_to_integration_wh_mapping := Some {[ "WH-A" := v ]} |}
      (Some "WH-A") in
  let refused v :=
    Raise (OtherException
             ("Shopify Location ID must be numeric. Got '" +:+ v +:+ "' for 'WH-A'.")) in
  resolve (VStr "5") = Ok 5 /\
  resolve (VInt 7) = Ok 7 /\
  resolve (VStr (String (ascii_of_nat 9) " 5" +:+ nl)) = Ok 5 /\
  resolve (VStr (String (ascii_of_nat 133) "5" +:+ String (ascii_of_nat 160) "")) = Ok 5 /\
  resolve (VStr "-1_0") = Ok (-10) /\
  resolve (VStr "+007") = Ok 7 /\
  resolve (VStr (String (ascii_of_nat 31) "5")) = refused (String (ascii_of_nat 31) "5") /\
  resolve (VStr "5_") = refused "5_" /\
  resolve (VStr "- 5") = refused "- 5" /\
  resolve (VStr "abc") = refused "abc" /\
  resolve (VStr "") = refused "" /\
  resolve VNone = refused "None".
Proof.
  intros resolve refused. split.
  - apply (proj1 (get_numeric_location_id_spec
                    {| get_erpnext_to_integration_wh_mapping := Some {[ "WH-A" := VStr "5" ]} |}
                    (Some "WH-A"))).
    exists "WH-A", (VStr "5"). split_and!; [reflexivity | discriminate | | reflexivity].
    apply lookup_singleton_eq.
  - vm_compute. split_and!; reflexivity.
Defined.


(** ** Batches *)

Section Batches.

Context {A : Type}.

Lemma slice_window (l : list A) (i size : nat) :
  slice l i (Nat.min (i + size) (length l)) = take size (drop i l).
Proof.
  unfold slice. destruct (decide (i + size <= length l)%nat).
  - f_equal. lia.
  - rewrite !take_ge; [done | rewrite length_drop; lia | rewrite length_drop; lia].
Qed.

Lemma create_batch_windows (l : list A) (size : nat) :
  create_batch l size =
  (fun k => take size (drop (k * size) l)) <$> seq 0 ((length l + size - 1) / size).
Proof.
  unfold create_batch, range_step. rewrite <- list_fmap_compose.
  apply list_fmap_ext. intros _ k _. apply slice_window.
Qed.

Lemma concat_windows (l : list A) (size j : nat) :
  concat ((fun k => take size (drop (k * size) l)) <$> seq 0 j) = take (j * size) l.
Proof.
  induction j as [|j IH]; [done|].
  rewrite seq_S, fmap_app, concat_app, IH. simpl. rewrite app_nil_r.
  rewrite take_take_drop. f_equal. lia.
Qed.

Lemma batches_cover (n size : nat) :
  (0 < size)%nat ->
  (n <= (n + size - 1) / size * size)%nat /\
  (forall k, k < (n + size - 1) / size -> k * size < n)%nat.
Proof.
  intros Hsize.
  pose proof (Nat.div_mod_eq (n + size - 1) size) as Hdm.
  pose proof (Nat.mod_upper_bound (n + size - 1) size ltac:(lia)) as Hm.
  split; [nia | intros k Hk; nia].
Qed.

Lemma create_batch_partition (l : list A) (size : nat) :
  (0 < size)%nat ->
  let batches := create_batch l size in
  concat batches = l /\
  Forall (fun b => 0 < length b <= size)%nat batches /\
  (forall i b, batches !! i = Some b -> (S i < length batches)%nat -> length b = size).
Proof.
  intros Hsize batches. subst batches. rewrite create_batch_windows.
  destruct (batches_cover (length l) size Hsize) as [Hcover Hlt].
  split_and!.
  - rewrite concat_windows. by rewrite take_ge.
  - apply Forall_fmap, Forall_forall. intros k Hk%elem_of_seq. simpl.
    rewrite length_take, length_drop. specialize (Hlt k). lia.
  - intros i b Hb Hi. rewrite length_fmap, length_seq in Hi.
    rewrite list_lookup_fmap in Hb.
    destruct (seq _ _ !! i) as [k|] eqn:Hk; [|done].
    apply lookup_seq in Hk as [-> _]. simpl in Hb. simplify_eq.
    rewrite length_take, length_drop.
    pose proof (Hlt (S i) Hi). simpl in *. lia.
Qed.

End Batches.

(** ** Batch pusher: one row *)

Section PusherFacts.

Context {W : Type} `{!Collaborators W}.

#[local] Arguments String.append : simpl never.
#[local] Arguments pretty : simpl never.
#[local] Arguments cint : simpl never.

(** Symbolic execution of a row: unfold the program, then decide the
    tests and the outcomes of the collaborators' calls in program order. *)
Ltac unfold_row :=
  unfold process_row, push_row, push_row_handler, _commit_row_and_continue,
    try_except, sync_status, commit, lift, call, get_row, set_attr,
    mbind, M_bind, mret, M_ret; cbn.

Ltac exec1 :=
  match goal with
  | H : ?x = _ |- context [?x] => rewrite H
  | |- context [option_bind _ _ py_int ?o] =>
      destruct (option_bind _ _ py_int o) eqn:?
  | |- context [truthy ?o] => destruct (truthy o) eqn:?
  | |- context [nonempty ?o] => destruct (nonempty o) eqn:?
  | |- context [nonzero ?o] => destruct (nonzero o) eqn:?
  | |- context [Variant_find ?v ?w] =>
      destruct (Variant_find v w) as [? [?|[?|?]]] eqn:?
  | |- context [InventoryLevel_set ?l ?i ?a ?w] =>
      destruct (InventoryLevel_set l i a w) as [? [[]|[?|?]]] eqn:?
  | |- context [update_inventory_sync_status ?e ?t ?w] =>
      destruct (update_inventory_sync_status e t w) as [? [[]|[?|?]]] eqn:?
  | |- context [db_commit ?w] =>
      destruct (db_commit w) as [? [[]|[?|?]]] eqn:?
  end; cbn.

Ltac exec := unfold_row; repeat exec1.

(** Membership in an explicit list of calls. *)
Ltac in_calls H :=
  repeat (apply elem_of_cons in H as [H|H]; [simplify_eq|]);
  try (by apply elem_of_nil in H).

(** C2. Whatever the collaborators do, every inventory-level set call that
    the processing of a row issues carries as quantity the truncation of
    [actual_qty] minus the truncation of [reserved_qty], where the
    truncation of a quantity [q] is the integer [cint q] next to [q] on the
    side of zero; for 10.7 and 3 the quantity is 7. *)
Theorem pushed_quantity_truncated
    (synced_on : string) (wm : gmap string pyval) (d : Row) (s : ext_state W) :
  (let '((d', s'), r) := process_row synced_on wm (d, s) in
   exists new : list event,
     calls s' = calls s ++ new /\
     forall loc item available ok,
       EvSet loc item available ok ∈ new ->
       available = cint (actual_qty d) - cint (reserved_qty d)) /\
  (forall q : Q,
      (0 <= q -> inject_Z (cint q) <= q < inject_Z (cint q) + 1)%Q /\
      (q <= 0 -> inject_Z (cint q) - 1 < q <= inject_Z (cint q))%Q) /\
  cint 10.7 - cint 3 = 7.
Proof.
  split; [|split; [apply cint_truncates | reflexivity]].
  exec.
  all: rewrite <- ?app_assoc; simpl.
  all: eexists; (split; [reflexivity|]).
  all: intros loc' item' available ok Hin; in_calls Hin; done.
Qed.


(** *** The layers of a row *)

Lemma process_row_unresolved synced_on (wm : gmap string pyval) (d : Row) (s : ext_state W) :
  wm !! warehouse d ≫= py_int = None ->
  process_row synced_on wm (d, s) =
  _commit_row_and_continue synced_on
    (set_failure_reason
       ("No numeric Shopify Location for ERP Warehouse: " +:+ warehouse d)
       (set_status "Failed" d), s).
Proof.
  intros Hloc. unfold process_row. unfold mbind at 1. unfold M_bind, get_row.
  rewrite Hloc. unfold mbind, M_bind, set_attr. cbn.
  by destruct (_commit_row_and_continue _ _) as [[] [[]|]].
Qed.

Lemma process_row_resolved synced_on (wm : gmap string pyval) (d : Row) (s : ext_state W) loc :
  wm !! warehouse d ≫= py_int = Some loc ->
  process_row synced_on wm (d, s) =
  match push_row synced_on (set_shopify_location_id loc d, s) with
  | (st, Ok Continue) => (st, Ok tt)
  | (st, Ok Next) => lift commit st
  | (st, Raise e) =>
      match push_row_handler synced_on e st with
      | (st', Ok Continue) => (st', Ok tt)
      | (st', Ok Next) => lift commit st'
      | (st', Raise e') => (st', Raise e')
      end
  end.
Proof.
  intros Hloc. unfold process_row. unfold mbind at 1. unfold M_bind, get_row.
  rewrite Hloc. unfold mbind, M_bind, set_attr, try_except. cbn.
  destruct (push_row _ _) as [st [[]|e]]; try done.
  destruct (push_row_handler _ _ _) as [st' [[]|e']]; done.
Qed.


(** The [try] block on the main path, up to a call that raises. *)
Lemma push_row_raised synced_on (d : Row) (s : ext_state W) pre e w :
  raised synced_on d (world s) pre e w ->
  push_row synced_on (d, s) = ((d, {| world := w; calls := calls s ++ pre |}), Raise e).
Proof.
  destruct 1; exec; rewrite <- ?app_assoc; done.
Qed.

Lemma handler_not_found synced_on (d : Row) (s : ext_state W) m w :
  update_inventory_sync_status (ecom_item d) synced_on (world s) = (w, Ok tt) ->
  push_row_handler synced_on (ResourceNotFound m) (d, s) =
  ((set_failure_reason (not_found_reason d) (set_status "Not Found" d),
    {| world := w; calls := calls s ++ [EvSync (ecom_item d) synced_on true] |}),
   Ok Next).
Proof. intros Hs. exec. done. Qed.

Lemma handler_other synced_on (d : Row) (s : ext_state W) m :
  push_row_handler synced_on (OtherException m) (d, s) =
  ((set_failure_reason m (set_status "Failed" d), s), Ok Next).
Proof. reflexivity. Qed.

Lemma lift_commit_run (d : Row) (s : ext_state W) :
  lift commit (d, s) =
  ((d, {| world := (db_commit (world s)).1;
          calls := calls s ++ [EvCommit (is_ok (db_commit (world s)).2)] |}),
   (db_commit (world s)).2).
Proof. unfold lift, commit, call. by destruct (db_commit _). Qed.


Lemma nonempty_str_opt (o : option string) (s : string) :
  nonempty o = Some s -> str_opt o = s.
Proof. intros Hs. apply nonempty_Some in Hs as [-> _]. done. Qed.

(** A row whose [try] block is left by not-found, the update of the
    handler returning. *)
Lemma not_found_row synced_on (wm : gmap string pyval) (d : Row) (s : ext_state W)
    loc pre m w1 w2 :
  let d1 := set_shopify_location_id loc d in
  wm !! warehouse d ≫= py_int = Some loc ->
  raised synced_on d1 (world s) pre (ResourceNotFound m) w1 ->
  update_inventory_sync_status (ecom_item d) synced_on w1 = (w2, Ok tt) ->
  process_row synced_on wm (d, s) =
  ((set_failure_reason (not_found_reason d1) (set_status "Not Found" d1),
    {| world := (db_commit w2).1;
       calls := calls s ++ pre ++
                [EvSync (ecom_item d) synced_on true;
                 EvCommit (is_ok (db_commit w2).2)] |}),
   (db_commit w2).2).
Proof.
  intros d1 Hloc Hraised Hsync. subst d1.
  rewrite (process_row_resolved _ _ _ _ _ Hloc).
  rewrite (push_row_raised _ _ _ _ _ _ Hraised).
  erewrite handler_not_found by exact Hsync.
  rewrite lift_commit_run. cbn. by rewrite <- !app_assoc.
Qed.

Lemma not_found_reason_cites (d : Row) (loc : Z) (vid : string) :
  nonempty (variant_id d) = Some vid ->
  let reason := not_found_reason (set_shopify_location_id loc d) in
  contains reason vid /\ contains reason (pretty loc).
Proof.
  intros Hvid. unfold not_found_reason. cbn.
  rewrite (nonempty_str_opt _ _ Hvid). split; auto 10 with text.
Qed.

(** X22. When the location of a row resolves and the lookup of its variant
    raises the not-found condition, the pusher updates the sync timestamp of
    the row's ecom item and, that update having returned, sets the status
    [Not Found] and a failure reason that cites the variant id and the
    location id, then commits: the calls of the row are the lookup, the
    update and the commit, and the row is left the way the commit is. *)
Theorem variant_lookup_not_found
    synced_on (wm : gmap string pyval) (d : Row) (s : ext_state W) loc vid m w1 w2 :
  wm !! warehouse d ≫= py_int = Some loc ->
  nonempty (variant_id d) = Some vid ->
  Variant_find vid (world s) = (w1, Raise (ResourceNotFound m)) ->
  update_inventory_sync_status (ecom_item d) synced_on w1 = (w2, Ok tt) ->
  let '((d', s'), r) := process_row synced_on wm (d, s) in
  status d' = Some "Not Found" /\
  (exists reason, failure_reason d' = Some reason /\
                  contains reason vid /\ contains reason (pretty loc)) /\
  calls s' = calls s ++ [EvFind vid false;
                         EvSync (ecom_item d) synced_on true;
                         EvCommit (is_ok r)].
Proof.
  intros Hloc Hvid Hfind Hsync.
  erewrite not_found_row; [| exact Hloc | by eapply raised_find | exact Hsync].
  split_and!; [done | | done].
  eexists. split; [reflexivity|]. by apply not_found_reason_cites.
Qed.

(** X23. When the lookup of the variant returns a variant with an inventory
    item id and the inventory-level set call then raises the not-found
    condition, the row ends as after a lookup miss: the sync timestamp is
    updated and, that update having returned, the status is [Not Found]
    (not [Failed]) with the reason that cites the variant id and the
    location id; the row then commits. *)
Theorem inventory_set_not_found
    synced_on (wm : gmap string pyval) (d : Row) (s : ext_state W)
    loc vid variant item m w1 w2 w3 :
  let available := cint (actual_qty d) - cint (reserved_qty d) in
  wm !! warehouse d ≫= py_int = Some loc ->
  nonempty (variant_id d) = Some vid ->
  Variant_find vid (world s) = (w1, Ok variant) ->
  nonzero (inventory_item_id variant) = Some item ->
  InventoryLevel_set (Some loc) item available w1 = (w2, Raise (ResourceNotFound m)) ->
  update_inventory_sync_status (ecom_item d) synced_on w2 = (w3, Ok tt) ->
  let '((d', s'), r) := process_row synced_on wm (d, s) in
  status d' = Some "Not Found" /\
  status d' <> Some "Failed" /\
  failure_reason d' = Some (not_found_reason (set_shopify_location_id loc d)) /\
  (exists reason, failure_reason d' = Some reason /\
                  contains reason vid /\ contains reason (pretty loc)) /\
  calls s' = calls s ++ [EvFind vid true;
                         EvSet (Some loc) item available false;
                         EvSync (ecom_item d) synced_on true;
                         EvCommit (is_ok r)].
Proof.
  intros available Hloc Hvid Hfind Hitem Hset Hsync.
  erewrite not_found_row;
    [| exact Hloc | by eapply raised_set; [exact Hvid | exact Hfind | exact Hitem | exact Hset]
     | exact Hsync].
  split_and!; [done | done | done | | done].
  eexists. split; [reflexivity|]. by apply not_found_reason_cites.
Qed.

Lemma raised_no_sync synced_on (d : Row) (w : W) pre e w1 :
  raised synced_on d w pre e w1 -> forall i t, EvSync i t true ∉ pre.
Proof. destruct 1; intros i t Hin; in_calls Hin. Qed.

(** C4, as amended. When the location of a row resolves and the variant
    lookup, the inventory-level set call or the sync-status update that
    follows it raises an exception other than not-found, the pusher sets
    the status [Failed] with the message of that exception as the failure
    reason, issues no call but the commit after the exception, and no
    sync-status update has returned for the row. *)
Theorem other_exception_row
    synced_on (wm : gmap string pyval) (d : Row) (s : ext_state W) loc pre m w1 :
  wm !! warehouse d ≫= py_int = Some loc ->
  raised synced_on (set_shopify_location_id loc d) (world s) pre (OtherException m) w1 ->
  let '((d', s'), r) := process_row synced_on wm (d, s) in
  status d' = Some "Failed" /\
  failure_reason d' = Some m /\
  calls s' = calls s ++ pre ++ [EvCommit (is_ok r)] /\
  forall i t, EvSync i t true ∉ pre ++ [EvCommit (is_ok r)].
Proof.
  intros Hloc Hraised.
  rewrite (process_row_resolved _ _ _ _ _ Hloc).
  rewrite (push_row_raised _ _ _ _ _ _ Hraised).
  rewrite handler_other, lift_commit_run. cbn.
  split_and!; [done | done | by rewrite <- app_assoc |].
  intros i t [Hin|Hin]%elem_of_app.
  - by eapply raised_no_sync.
  - in_calls Hin.
Qed.



(** ** Batch pusher: the loops *)

Lemma for_each_segments {X} (body : M (X * ext_state W) unit)
    (P : X -> list event -> Prop) :
  (forall x s x' s', body (x, s) = ((x', s'), Ok tt) ->
                     exists seg, calls s' = calls s ++ seg /\ P x seg) ->
  forall l s l' s',
    for_each body l s = ((l', s'), Ok tt) ->
    exists segs, Forall2 P l segs /\ calls s' = calls s ++ concat segs.
Proof.
  intros Hbody l. induction l as [|x l IH]; intros s l' s' Hrun; simpl in Hrun.
  - simplify_eq. exists []. split; [constructor | by rewrite app_nil_r].
  - destruct (body (x, s)) as [[x' s1] [[]|e]] eqn:Hx; [|done].
    destruct (for_each body l s1) as [[rest s2] r] eqn:Hl. simplify_eq.
    apply Hbody in Hx as (seg & Hseg & HP).
    apply IH in Hl as (segs & Hsegs & Hcalls).
    exists (seg :: segs). split; [by constructor|].
    simpl. by rewrite Hcalls, Hseg, app_assoc.
Qed.

Lemma for_each_returns {S X} (body : M (X * S) unit) (Q : X -> Prop) :
  (forall x s, exists x' s', body (x, s) = ((x', s'), Ok tt) /\ Q x') ->
  forall l s, exists l' s',
    for_each body l s = ((l', s'), Ok tt) /\ length l' = length l /\ Forall Q l'.
Proof.
  intros Hbody l. induction l as [|x l IH]; intros s; simpl.
  - by exists [], s.
  - destruct (Hbody x s) as (x' & s1 & -> & Hx).
    destruct (IH s1) as (l' & s2 & -> & Hlen & Hl).
    exists (x' :: l'), s2. split_and!; [done | by simpl; rewrite Hlen | by constructor].
Qed.


Lemma one_commit_at_end_intro (seg : list event) :
  last seg = Some (EvCommit true) ->
  forallb before_commit (removelast seg) = true ->
  one_commit_at_end seg.
Proof.
  intros Hlast Hpre. exists (removelast seg). split; [|done].
  destruct seg as [|e seg] using rev_ind; [done|].
  rewrite last_snoc in Hlast. simplify_eq. by rewrite removelast_last.
Qed.

(** The calls of a row that is left normally. *)
Lemma process_row_segment synced_on (wm : gmap string pyval) (d : Row) (s : ext_state W) d' s' :
  process_row synced_on wm (d, s) = ((d', s'), Ok tt) ->
  exists seg, calls s' = calls s ++ seg /\ row_segment synced_on wm d seg.
Proof.
  intros Hrun.
  cut (exists seg, calls s' = calls s ++ seg /\ one_commit_at_end seg).
  { intros (seg & Hcalls & Hseg). exists seg. split; [done|].
    split; [eauto 10 | done]. }
  revert Hrun. exec; intros Hrun; simplify_eq; cbn.
  all: rewrite <- ?app_assoc; cbn.
  all: eexists; (split; [reflexivity|]).
  all: by apply one_commit_at_end_intro.
Qed.

Lemma log_batch_status_run `{!FloatFormat} (batch : list Row) (s : ext_state W) :
  exists st msg w r,
    _log_batch_status batch s =
      ({| world := w; calls := calls s ++ [EvLog st msg (is_ok r)] |}, r) /\
    st = batch_status (success_fraction batch) /\
    contains msg (float_str (success_fraction batch * 100)%Q +:+ "%").
Proof.
  unfold _log_batch_status, _log, call.
  destruct (create_shopify_log _ _ _ _) as [w r].
  eexists _, _, _, _. split_and!; [reflexivity | done |].
  eexists "Updated ", _. rewrite append_assoc. reflexivity.
Qed.

Lemma process_batch_segment `{!FloatFormat} synced_on (wm : gmap string pyval)
    (batch : list Row) (s : ext_state W) batch' s' :
  process_batch synced_on wm (batch, s) = ((batch', s'), Ok tt) ->
  exists seg, calls s' = calls s ++ seg /\ batch_segment synced_on wm batch seg.
Proof.
  unfold process_batch.
  destruct (for_each _ batch s) as [[rows s1] [[]|e]] eqn:Hrows; [|done].
  destruct (log_batch_status_run rows s1) as (st & msg & w & r & -> & _).
  intros ?; simplify_eq.
  eapply for_each_segments in Hrows as (segs & Hsegs & Hcalls);
    [|apply process_row_segment].
  exists (concat segs ++ [EvLog st msg true]). cbn. split.
  - by rewrite Hcalls, app_assoc.
  - by exists segs, st, msg.
Qed.


(** *** Rows that cannot fail *)

Ltac commit_raised Hcommit :=
  match goal with
  | Hc : db_commit ?w = (_, Raise _) |- _ =>
      let Hx := fresh in
      pose proof (Hcommit w) as Hx; rewrite Hc in Hx; discriminate Hx
  end.

Lemma commit_row_returns synced_on (d : Row) (s : ext_state W) :
  (forall w, (db_commit w).2 = Ok tt) ->
  exists s', _commit_row_and_continue synced_on (d, s) = ((d, s'), Ok tt).
Proof.
  intros Hcommit. exec; try commit_raised Hcommit; eauto.
Qed.

(** When the commit cannot raise, the [try] block returns with the status
    set, or is left by the exception of a call of its main path. *)
Lemma push_row_cases synced_on (d : Row) (s : ext_state W) :
  (forall w, (db_commit w).2 = Ok tt) ->
  let '((d', s'), r) := push_row synced_on (d, s) in
  match r with
  | Ok _ => is_Some (status d')
  | Raise e =>
      exists pre w, raised synced_on d (world s) pre e w /\
                    d' = d /\ s' = {| world := w; calls := calls s ++ pre |}
  end.
Proof.
  intros Hcommit. exec; try commit_raised Hcommit; try (by eexists).
  all: eexists _, _; split_and!;
    [ first [ by eapply raised_sync | by eapply raised_set | by eapply raised_find ]
    | done
    | by rewrite <- ?app_assoc ].
Qed.

Lemma process_row_returns synced_on (wm : gmap string pyval) (d : Row) (s : ext_state W) :
  (forall w, (db_commit w).2 = Ok tt) ->
  (forall d1 s1 d2 s2 m,
      push_row synced_on (d1, s1) = ((d2, s2), Raise (ResourceNotFound m)) ->
      (update_inventory_sync_status (ecom_item d2) synced_on (world s2)).2 = Ok tt) ->
  exists d' s', process_row synced_on wm (d, s) = ((d', s'), Ok tt) /\
                is_Some (status d').
Proof.
  intros Hcommit Hsync.
  destruct (wm !! warehouse d ≫= py_int) as [loc|] eqn:Hloc.
  - rewrite (process_row_resolved _ _ _ _ _ Hloc).
    pose proof (push_row_cases synced_on (set_shopify_location_id loc d) s Hcommit) as Hc.
    destruct (push_row _ _) as [[d2 s2] [fl|e]] eqn:Hp.
    + destruct fl; [|by eauto].
      rewrite lift_commit_run, Hcommit. eauto.
    + destruct Hc as (pre & w & Hr & -> & ->). destruct e as [m|m].
      * pose proof (Hsync _ _ _ _ _ Hp) as Hu. cbn in Hu.
        destruct (update_inventory_sync_status _ _ w) as [w2 r2] eqn:Hs.
        cbn in Hu. subst r2.
        erewrite handler_not_found by exact Hs.
        rewrite lift_commit_run, Hcommit. by eauto.
      * rewrite handler_other, lift_commit_run, Hcommit. by eauto.
  - rewrite (process_row_unresolved _ _ _ _ Hloc).
    destruct (commit_row_returns synced_on
                (set_failure_reason
                   ("No numeric Shopify Location for ERP Warehouse: " +:+ warehouse d)
                   (set_status "Failed" d)) s Hcommit) as (s' & ->).
    by eauto.
Qed.

(** C6, as amended. When the local commit does not raise, and the
    sync-status update that the not-found handler issues returns, no
    exception leaves the processing of a row, whatever the variant lookup,
    the inventory-level set call and the other sync-status updates do: the
    loop over the rows of a batch goes through every row, and every row
    receives a status. *)
Theorem rows_never_abort
    synced_on (wm : gmap string pyval) (batch : list Row) (s : ext_state W) :
  (forall w, (db_commit w).2 = Ok tt) ->
  (forall d1 s1 d2 s2 m,
      push_row synced_on (d1, s1) = ((d2, s2), Raise (ResourceNotFound m)) ->
      (update_inventory_sync_status (ecom_item d2) synced_on (world s2)).2 = Ok tt) ->
  exists batch' s',
    for_each (process_row synced_on wm) batch s = ((batch', s'), Ok tt) /\
    length batch' = length batch /\
    Forall (fun d => is_Some (status d)) batch'.
Proof.
  intros Hcommit Hsync. apply for_each_returns.
  intros d s0. by apply process_row_returns.
Qed.

(** C9, as amended. The rows are cut into consecutive batches of 50, the
    last one possibly smaller, in their order; in a run that returns, the
    calls are
    those of the batches one after the other, the calls of a batch being
    those of its rows, one row after the other, each row ending with the
    one local commit that took effect for it, followed by one log entry
    for the batch; and the run returns when the local commit, the
    sync-status update and the log sink do not raise, whatever the remote
    calls do. *)
Theorem upload_in_batches `{!FloatFormat}
    (rows : list Row) (wm : gmap string pyval) (s : ext_state W) :
  let batches := create_batch rows 50 in
  concat batches = rows /\
  Forall (fun b => 0 < length b <= 50)%nat batches /\
  (forall i b, batches !! i = Some b -> (S i < length batches)%nat ->
               length b = 50%nat) /\
  (forall out s',
      upload_inventory_data_to_shopify rows wm s = ((out, s'), Ok tt) ->
      exists segs,
        Forall2 (batch_segment (now (world s)) wm) batches segs /\
        calls s' = calls s ++ concat segs) /\
  ((forall w, (db_commit w).2 = Ok tt) ->
   (forall i t w, (update_inventory_sync_status i t w).2 = Ok tt) ->
   (forall st msg m w, (create_shopify_log st msg m w).2 = Ok tt) ->
   exists out s', upload_inventory_data_to_shopify rows wm s = ((out, s'), Ok tt)).
Proof.
  intros batches.
  destruct (create_batch_partition rows 50 ltac:(lia)) as (Hcat & Hlen & Hfull).
  split_and!; [done | done | done | |].
  - intros out s' Hrun. unfold upload_inventory_data_to_shopify in Hrun.
    eapply for_each_segments in Hrun; [done|].
    intros b s0 b' s1. apply process_batch_segment.
  - intros Hcommit Hsync Hlog. unfold upload_inventory_data_to_shopify.
    edestruct (for_each_returns (process_batch (now (world s)) wm) (fun _ => True))
      as (out & s' & Hrun & _); [|by eauto].
    intros b s0. unfold process_batch.
    edestruct (for_each_returns (process_row (now (world s)) wm)
                                (fun d => is_Some (status d)))
      as (b' & s1 & -> & _).
    { intros d s2. apply process_row_returns; [done|]. intros. apply Hsync. }
    unfold _log_batch_status, _log, call.
    destruct (create_shopify_log _ _ _ _) as [w' r'] eqn:Hc.
    match type of Hc with
    | create_shopify_log ?a ?b ?c ?w = _ =>
        pose proof (Hlog a b c w) as Hr; rewrite Hc in Hr
    end.
    cbn in Hr. subst r'.
    eauto.
Qed.

(** ** Batch pusher: what holds of every run *)

(** A property of the calls a loop adds, when it holds of the calls each
    turn adds and passes to concatenations. *)
Lemma for_each_new {X} (body : M (X * ext_state W) unit)
    (Φ : list X -> list event -> Prop) :
  (forall l, Φ l []) ->
  (forall x l a b, Φ [x] a -> Φ l b -> Φ (x :: l) (a ++ b)) ->
  (forall x s, exists new, calls (body (x, s)).1.2 = calls s ++ new /\ Φ [x] new) ->
  forall l s, exists new, calls (for_each body l s).1.2 = calls s ++ new /\ Φ l new.
Proof.
  intros Hnil Happ Hbody l. induction l as [|x l IH]; intros s; simpl.
  { exists []. by rewrite app_nil_r. }
  destruct (Hbody x s) as (a & Ha & Hx).
  destruct (body (x, s)) as [[x' s1] [[]|e]]; simpl in Ha.
  - destruct (IH s1) as (b & Hb & Hl).
    destruct (for_each body l s1) as [[rest s2] r]. simpl in *.
    exists (a ++ b). split; [by rewrite Hb, Ha, app_assoc | by apply Happ].
  - simpl. exists a. split; [done|].
    rewrite <- (app_nil_r a). by apply Happ.
Qed.

(** The rows a loop gives back, when each turn keeps a reflexive
    relation. *)
Lemma for_each_rows {S X} (body : M (X * S) unit) (R : X -> X -> Prop) :
  (forall x, R x x) ->
  (forall x s, R x (body (x, s)).1.1) ->
  forall l s, Forall2 R l (for_each body l s).1.1.
Proof.
  intros Hrefl Hbody l. induction l as [|x l IH]; intros s; simpl; [constructor|].
  pose proof (Hbody x s) as Hx.
  destruct (body (x, s)) as [[x' s1] [[]|e]]; simpl in Hx.
  - pose proof (IH s1) as Hl.
    destruct (for_each body l s1) as [[rest s2] r]. simpl in *. by constructor.
  - simpl. constructor; [done|]. by apply Forall_Forall2_diag, Forall_forall.
Qed.

(** A batch: the calls of its rows, then at most one log entry; the rows
    are those the loop over the rows gives back. *)
Lemma process_batch_run `{!FloatFormat} synced_on (wm : gmap string pyval)
    (batch : list Row) (s : ext_state W) :
  let rows := for_each (process_row synced_on wm) batch s in
  exists logged : list event,
    (process_batch synced_on wm (batch, s)).1.1 = rows.1.1 /\
    calls (process_batch synced_on wm (batch, s)).1.2 = calls rows.1.2 ++ logged /\
    (logged = [] \/
     exists msg ok, logged = [EvLog (batch_status (success_fraction rows.1.1)) msg ok]).
Proof.
  unfold process_batch. cbn.
  destruct (for_each _ batch s) as [[rows s1] [[]|e]]; cbn.
  - destruct (log_batch_status_run rows s1) as (st & msg & w & r & -> & -> & _).
    cbn. eexists. split_and!; [done | done | eauto].
  - exists []. by rewrite app_nil_r; auto.
Qed.

Lemma count_app (p : event -> bool) (a b : list event) :
  count p (a ++ b) = (count p a + count p b)%nat.
Proof. unfold count. by rewrite filter_app, length_app. Qed.

(** A property of single calls, over a whole run. *)
Lemma upload_calls `{!FloatFormat} (P : event -> Prop)
    (rows : list Row) (wm : gmap string pyval) (s : ext_state W) :
  (forall d s0, exists new,
      calls (process_row (now (world s)) wm (d, s0)).1.2 = calls s0 ++ new /\
      Forall P new) ->
  (forall st msg ok, P (EvLog st msg ok)) ->
  exists new,
    calls (upload_inventory_data_to_shopify rows wm s).1.2 = calls s ++ new /\
    Forall P new.
Proof.
  intros Hrow Hlog. unfold upload_inventory_data_to_shopify.
  apply (for_each_new _ (fun _ new => Forall P new)); [done | | ].
  { intros _ _ a b Ha Hb. by apply Forall_app. }
  intros batch s0.
  destruct (process_batch_run (now (world s)) wm batch s0) as (logged & _ & -> & Hlogged).
  destruct (for_each_new (process_row (now (world s)) wm)
              (fun _ new => Forall P new)) with (l := batch) (s := s0)
    as (new & -> & Hnew); [done | | done |].
  { intros _ _ a b Ha Hb. by apply Forall_app. }
  exists (new ++ logged). split; [by rewrite app_assoc|].
  apply Forall_app. split; [done|].
  destruct Hlogged as [->|(msg & ok & ->)]; [done|]. by constructor.
Qed.

(** Every path of a row, after symbolic execution: the calls added are an
    explicit list. *)
Ltac explicit_calls :=
  cbn; rewrite <- ?app_assoc; cbn; eexists; (split; [reflexivity|]).

(** X1. All the sync-status updates of a run carry one timestamp, the time
    taken once when the run starts, whatever the collaborators do and
    however the run ends. *)
Theorem one_timestamp_per_run `{!FloatFormat}
    (rows : list Row) (wm : gmap string pyval) (s : ext_state W) :
  let '((out, s'), r) := upload_inventory_data_to_shopify rows wm s in
  exists new,
    calls s' = calls s ++ new /\
    forall i t ok, EvSync i t ok ∈ new -> t = now (world s).
Proof.
  destruct (upload_calls
              (fun e => forall i t ok, e = EvSync i t ok -> t = now (world s))
              rows wm s) as (new & Hcalls & Hnew).
  - intros d s0. exec; explicit_calls.
    all: repeat constructor; intros; simplify_eq; done.
  - intros; simplify_eq.
  - destruct (upload_inventory_data_to_shopify rows wm s) as [[out s'] r].
    exists new. split; [done|]. intros i t ok Hin.
    rewrite Forall_forall in Hnew. by eapply Hnew.
Qed.

Lemma Forall2_concat_lists {A B} (R : A -> B -> Prop) (ls : list (list A)) (ks : list (list B)) :
  Forall2 (Forall2 R) ls ks -> Forall2 R (concat ls) (concat ks).
Proof.
  induction 1 as [|l k ls ks Hlk _ IH]; simpl; [constructor|]. by apply Forall2_app.
Qed.

(** A relation between a row before and after, over a whole run. *)
Lemma upload_rows `{!FloatFormat} (R : Row -> Row -> Prop)
    (rows : list Row) (wm : gmap string pyval) (s : ext_state W) :
  (forall d, R d d) ->
  (forall d s0, R d (process_row (now (world s)) wm (d, s0)).1.1) ->
  Forall2 R rows (concat (upload_inventory_data_to_shopify rows wm s).1.1).
Proof.
  intros Hrefl Hrow.
  destruct (create_batch_partition rows 50 ltac:(lia)) as (Hcat & _ & _).
  rewrite <- Hcat at 1. apply Forall2_concat_lists.
  unfold upload_inventory_data_to_shopify.
  apply (for_each_rows _ (Forall2 R)).
  - intros b. by apply Forall_Forall2_diag, Forall_forall.
  - intros b s0.
    destruct (process_batch_run (now (world s)) wm b s0) as (_ & -> & _).
    by apply for_each_rows.
Qed.

Lemma singleton_resolves (wh k : string) (n z : Z) :
  ({[ wh := VInt n ]} : gmap string pyval) !! k ≫= py_int = Some z -> k = wh /\ z = n.
Proof.
  destruct (decide (wh = k)) as [->|Hne].
  - rewrite lookup_singleton_eq. by intros [= ->].
  - by rewrite lookup_singleton_ne.
Qed.

(** X2. With a map of one entry, a warehouse and an integer location id
    (the map the orchestrator builds), every inventory-level set call of a
    run carries that location id, and the location id of a row is either
    left as it was or, for a row of that warehouse only, set to that id;
    whatever the collaborators do and however the run ends. *)
Theorem single_entry_map_location `{!FloatFormat}
    (rows : list Row) (wh : string) (n : Z) (s : ext_state W) :
  let '((out, s'), r) :=
    upload_inventory_data_to_shopify rows {[ wh := VInt n ]} s in
  (exists new,
      calls s' = calls s ++ new /\
      forall l i a ok, EvSet l i a ok ∈ new -> l = Some n) /\
  Forall2 (fun d d' =>
             shopify_location_id d' = shopify_location_id d \/
             (warehouse d = wh /\ shopify_location_id d' = Some n))
          rows (concat out).
Proof.
  pose proof (upload_calls (fun e => forall l i a ok, e = EvSet l i a ok -> l = Some n)
                rows {[ wh := VInt n ]} s) as Hcalls.
  pose proof (upload_rows
                (fun d d' =>
                   shopify_location_id d' = shopify_location_id d \/
                   (warehouse d = wh /\ shopify_location_id d' = Some n))
                rows {[ wh := VInt n ]} s) as Hrows.
  destruct (upload_inventory_data_to_shopify rows _ s) as [[out s'] r].
  split.
  - destruct Hcalls as (new & Hnew & HP).
    + intros d s0. exec; explicit_calls.
      all: repeat constructor; intros; simplify_eq; try done.
      all: match goal with
           | H : option_bind _ _ py_int _ = Some _ |- _ =>
               apply singleton_resolves in H as [_ ->]; done
           end.
    + intros; simplify_eq.
    + exists new. split; [done|]. intros l i a ok Hin.
      rewrite Forall_forall in HP. by eapply HP.
  - apply Hrows; [by left|].
    intros d s0. exec.
    all: try (by left).
    all: match goal with
         | H : option_bind _ _ py_int _ = Some _ |- _ =>
             apply singleton_resolves in H as [-> ->]; by right
         end.
Qed.

(** X3. A run writes only the location id, the status and the failure
    reason of a row: the rows it gives back are the rows it was given, in
    their order, with the same ecom-item reference, warehouse, quantities
    and variant id; whatever the collaborators do and however the run
    ends. *)
Theorem upload_keeps_inputs `{!FloatFormat}
    (rows : list Row) (wm : gmap string pyval) (s : ext_state W) :
  Forall2 same_input rows (concat (upload_inventory_data_to_shopify rows wm s).1.1) /\
  length (concat (upload_inventory_data_to_shopify rows wm s).1.1) = length rows.
Proof.
  assert (Forall2 same_input rows
            (concat (upload_inventory_data_to_shopify rows wm s).1.1)) as Hrows.
  { apply upload_rows; [done|]. intros d s0. exec; done. }
  split; [done|]. symmetry. by eapply Forall2_length.
Qed.

(** X4. A row whose processing returns has status [Success] exactly when
    its calls are the variant lookup, the inventory-level set with the
    row's location id and computed quantity, the sync-status update and
    the commit, all four having returned. *)
Theorem success_iff_pushed
    synced_on (wm : gmap string pyval) (d : Row) (s : ext_state W) d' s' :
  process_row synced_on wm (d, s) = ((d', s'), Ok tt) ->
  status d' = Some "Success" <->
  exists vid item,
    calls s' = calls s ++
      [EvFind vid true;
       EvSet (shopify_location_id d') item
             (cint (actual_qty d) - cint (reserved_qty d)) true;
       EvSync (ecom_item d) synced_on true;
       EvCommit true].
Proof.
  exec; intros Hrun; simplify_eq; cbn.
  all: rewrite <- ?app_assoc; cbn.
  all: split; [ intros Hst; try discriminate Hst; by eauto
              | intros (vid & item & Hcalls); apply app_inv_head in Hcalls;
                try discriminate Hcalls; done ].
Qed.

Lemma cint_whole (q : Q) (m : Z) : (q == inject_Z m)%Q -> cint q = m.
Proof.
  destruct q as [n p]. unfold Qeq, cint. cbn. rewrite Z.mul_1_r. intros ->.
  by apply Z.quot_mul.
Qed.

(** X5. A row whose location resolves and that has no variant id leads to
    no variant lookup and no inventory-level set call, whatever the
    collaborators do; when the local commit does not raise, the row is left
    normally with status [Failed], the reason that the variant id is
    missing, and its location id set. *)
Theorem missing_variant_id_row
    synced_on (wm : gmap string pyval) (d : Row) (s : ext_state W) loc :
  wm !! warehouse d ≫= py_int = Some loc ->
  nonempty (variant_id d) = None ->
  let '((d', s'), r) := process_row synced_on wm (d, s) in
  (exists new,
      calls s' = calls s ++ new /\
      forall e, e ∈ new -> is_find e = false /\ is_set e = false) /\
  ((forall w, (db_commit w).2 = Ok tt) ->
   r = Ok tt /\
   status d' = Some "Failed" /\
   failure_reason d' = Some "Missing variant_id in Ecommerce Item mapping." /\
   shopify_location_id d' = Some loc).
Proof.
  intros Hloc Hvid. rewrite (process_row_resolved _ _ _ _ _ Hloc).
  exec. all: rewrite ?lift_commit_run; cbn.
  all: split; [ explicit_calls; intros e He; in_calls He; done
              | intros Hcommit; try commit_raised Hcommit; done ].
Qed.

(** X6. A row whose location resolves and whose variant, once looked up,
    has no inventory item id leads to that one lookup and to no
    inventory-level set call, whatever the collaborators do; when the local
    commit does not raise, the row is left normally with status [Failed]
    and a reason that names the variant id. *)
Theorem variant_without_inventory_item_row
    synced_on (wm : gmap string pyval) (d : Row) (s : ext_state W)
    loc vid w1 variant :
  wm !! warehouse d ≫= py_int = Some loc ->
  nonempty (variant_id d) = Some vid ->
  Variant_find vid (world s) = (w1, Ok variant) ->
  nonzero (inventory_item_id variant) = None ->
  let '((d', s'), r) := process_row synced_on wm (d, s) in
  (exists rest,
      calls s' = calls s ++ EvFind vid true :: rest /\
      forall e, e ∈ rest -> is_find e = false /\ is_set e = false) /\
  ((forall w, (db_commit w).2 = Ok tt) ->
   r = Ok tt /\
   status d' = Some "Failed" /\
   failure_reason d' =
     Some ("Shopify variant " +:+ vid +:+ " has no inventory_item_id.") /\
   contains ("Shopify variant " +:+ vid +:+ " has no inventory_item_id.") vid).
Proof.
  intros Hloc Hvid Hfind Hitem. rewrite (process_row_resolved _ _ _ _ _ Hloc).
  exec. all: rewrite ?lift_commit_run; cbn.
  all: split; [ explicit_calls; intros e He; in_calls He; done | ].
  all: intros Hcommit; try commit_raised Hcommit.
  all: split_and!; [done | done | done | auto with text].
Qed.

(** The calls of a loop, turn by turn: one segment for every element up
    to the one where the loop ends, all of them when it returns. *)
Lemma for_each_prefix {X} (body : M (X * ext_state W) unit)
    (Φ : X -> list event -> Prop) :
  (forall x s, exists seg, calls (body (x, s)).1.2 = calls s ++ seg /\ Φ x seg) ->
  forall l s, exists segs,
    calls (for_each body l s).1.2 = calls s ++ concat segs /\
    Forall2 Φ (take (length segs) l) segs /\
    ((for_each body l s).2 = Ok tt -> length segs = length l).
Proof.
  intros Hbody l. induction l as [|x l IH]; intros s; simpl.
  { exists []. by rewrite app_nil_r. }
  destruct (Hbody x s) as (seg & Hseg & Hx).
  destruct (body (x, s)) as [[x' s1] [[]|e]]; simpl in Hseg.
  - destruct (IH s1) as (segs & Hsegs & Hl & Hlen).
    destruct (for_each body l s1) as [[rest s2] r]. simpl in *.
    exists (seg :: segs). simpl. split_and!.
    + by rewrite Hsegs, Hseg, app_assoc.
    + by constructor.
    + intros Hr. by rewrite Hlen.
  - exists [seg]. simpl. rewrite take_0, app_nil_r. split_and!; [done | | done].
    by repeat constructor.
Qed.

(** The calls of a row. *)
Lemma process_row_calls synced_on (wm : gmap string pyval) (d : Row) (s : ext_state W) :
  exists seg,
    calls (process_row synced_on wm (d, s)).1.2 = calls s ++ seg /\
    row_calls d seg /\ (count is_set seg <= count is_find seg)%nat.
Proof.
  exec; explicit_calls.
  all: split; [|unfold count; simpl; lia].
  all: unfold row_calls; split_and!.
  all: try (by repeat constructor).
  all: try (unfold count; simpl; lia).
  all: try (intros vid' ok' Hin; in_calls Hin;
            try match goal with
                | H : nonempty _ = Some _ |- _ => by apply nonempty_Some in H as [? _]
                end; fail).
  all: intros j l' i' a' ok' Hj;
    repeat (destruct j as [|j]; simplify_eq/=).
  all: exists 0%nat; eexists; (split; [lia | reflexivity]).
Qed.

Lemma count_concat (p : event -> bool) (segs : list (list event)) :
  Forall (fun seg => (count p seg <= 1)%nat) segs ->
  (count p (concat segs) <= length segs)%nat.
Proof.
  induction 1 as [|seg segs Hseg _ IH]; [by unfold count; simpl|].
  rewrite concat_cons, count_app, length_cons. lia.
Qed.

Lemma count_concat_le (p q : event -> bool) (segs : list (list event)) :
  Forall (fun seg => (count p seg <= count q seg)%nat) segs ->
  (count p (concat segs) <= count q (concat segs))%nat.
Proof.
  induction 1 as [|seg segs Hseg _ IH]; [done|].
  rewrite concat_cons, !count_app. lia.
Qed.

Lemma count_without_log (p : event -> bool) (l : list event) :
  (forall e, p e = true -> is_log e = false) ->
  count p (filter (fun e => is_log e = false) l) = count p l.
Proof.
  intros Hp. unfold count. induction l as [|e l IH]; [done|].
  rewrite !filter_cons. destruct (p e) eqn:He; simpl.
  - rewrite decide_True by auto. rewrite filter_cons, He. simpl. by rewrite IH.
  - case_decide; [rewrite filter_cons, He|]; simpl; exact IH.
Qed.

Lemma filter_without_log (segs : list (list event)) :
  Forall (Forall (fun e => is_log e = false)) segs ->
  filter (fun e => is_log e = false) (concat segs) = concat segs.
Proof.
  induction 1 as [|seg segs Hseg _ IH]; simpl; [done|].
  rewrite filter_app, IH. f_equal.
  induction Hseg as [|e seg He _ IHseg]; [done|].
  by rewrite filter_cons, decide_True, IHseg.
Qed.

Lemma for_each_cons {S X} (body : M (X * S) unit) (x : X) (l : list X) (s : S) :
  for_each body (x :: l) s =
  match body (x, s) with
  | ((x', s'), Ok _) =>
      let '((rest', s''), r) := for_each body l s' in ((x' :: rest', s''), r)
  | ((x', s'), Raise e) => ((x' :: l, s'), Raise e)
  end.
Proof. reflexivity. Qed.

Lemma process_batch_unfold `{!FloatFormat} synced_on (wm : gmap string pyval)
    (batch : list Row) (s : ext_state W) :
  process_batch synced_on wm (batch, s) =
  match for_each (process_row synced_on wm) batch s with
  | ((batch', s'), Ok _) =>
      let (s'', r) := _log_batch_status batch' s' in ((batch', s''), r)
  | (st, Raise e) => (st, Raise e)
  end.
Proof. reflexivity. Qed.

(** The calls of the batches, log entries apart, row by row. *)
Lemma batches_prefix `{!FloatFormat} synced_on (wm : gmap string pyval)
    (Φ : Row -> list event -> Prop) (bs : list (list Row)) (s : ext_state W) :
  (forall d seg, Φ d seg -> Forall (fun e => is_log e = false) seg) ->
  (forall d s0, exists seg,
      calls (process_row synced_on wm (d, s0)).1.2 = calls s0 ++ seg /\ Φ d seg) ->
  exists new segs,
    calls (for_each (process_batch synced_on wm) bs s).1.2 = calls s ++ new /\
    filter (fun e => is_log e = false) new = concat segs /\
    Forall2 Φ (take (length segs) (concat bs)) segs /\
    ((for_each (process_batch synced_on wm) bs s).2 = Ok tt ->
     length segs = length (concat bs)).
Proof.
  intros Hnolog Hrow. revert s. induction bs as [|b bs IH]; intros s.
  { exists [], []. simpl. by rewrite app_nil_r. }
  rewrite for_each_cons, process_batch_unfold, concat_cons.
  destruct (for_each_prefix (process_row synced_on wm) Φ Hrow b s)
    as (segsb & Hcalls & Hsegsb & Hlenb).
  assert (filter (fun e => is_log e = false) (concat segsb) = concat segsb) as Hfilter.
  { apply filter_without_log. clear -Hsegsb Hnolog.
    induction Hsegsb; constructor; eauto. }
  assert (length segsb <= length b)%nat as Hle.
  { apply Forall2_length in Hsegsb. rewrite length_take in Hsegsb. lia. }
  destruct (for_each (process_row synced_on wm) b s) as [[b' s1] [[]|e]];
    cbn [fst snd] in Hcalls, Hlenb.
  - specialize (Hlenb eq_refl).
    destruct (log_batch_status_run b' s1) as (st & msg & w & r & -> & _).
    destruct r as [[]|e]; cbn [is_ok]; cbv beta iota zeta.
    + destruct (IH {| world := w; calls := calls s1 ++ [EvLog st msg true] |})
        as (new & segs & Hnew & Hfnew & Hsegs & Hlen).
      destruct (for_each (process_batch synced_on wm) bs _) as [[rest s2] r].
      cbn [fst snd calls] in *.
      exists (concat segsb ++ [EvLog st msg true] ++ new), (segsb ++ segs).
      split_and!.
      * by rewrite Hnew, Hcalls, <- !app_assoc.
      * rewrite !filter_app, Hfilter, Hfnew, concat_app.
        rewrite filter_cons, decide_False by done. done.
      * rewrite length_app, take_app_add' by done.
        apply Forall2_app; [|done]. by rewrite take_ge in Hsegsb by lia.
      * intros Hr. rewrite !length_app, Hlen by done. lia.
    + cbn [fst snd calls].
      exists (concat segsb ++ [EvLog st msg false]), segsb. split_and!.
      * by rewrite Hcalls, <- !app_assoc.
      * rewrite filter_app, Hfilter, filter_cons, decide_False by done.
        by rewrite app_nil_r.
      * by rewrite take_app_le.
      * done.
  - cbn [fst snd].
    exists (concat segsb), segsb. split_and!; [done | done | by rewrite take_app_le | done].
Qed.

(** X7. A run never looks a variant up, nor sets an inventory level, more
    than once per row, and it sets a level only after a lookup that
    returned. The calls of a run, its log entries apart, are the calls of
    its rows one after the other, for the rows up to the one where the run
    ends, all of them when the run returns; the calls of a row hold at
    most one variant lookup, for the variant id of that row, and at most
    one inventory-level set call, which comes after a lookup that
    returned. So among the calls of a run the set calls are at most as
    many as the lookups, and the lookups at most as many as the rows;
    whatever the collaborators do and however the run ends. *)
Theorem at_most_one_push_per_row `{!FloatFormat}
    (rows : list Row) (wm : gmap string pyval) (s : ext_state W) :
  let '((out, s'), r) := upload_inventory_data_to_shopify rows wm s in
  exists new segs,
    calls s' = calls s ++ new /\
    filter (fun e => is_log e = false) new = concat segs /\
    Forall2 row_calls (take (length segs) rows) segs /\
    (r = Ok tt -> length segs = length rows) /\
    (count is_set new <= count is_find new <= length rows)%nat.
Proof.
  destruct (batches_prefix (now (world s)) wm
              (fun d seg => row_calls d seg /\ (count is_set seg <= count is_find seg)%nat)
              (create_batch rows 50) s)
    as (new & segs & Hnew & Hfilter & Hsegs & Hlen).
  { intros d seg [Hd _]. apply Hd. }
  { intros d s0. apply process_row_calls. }
  destruct (create_batch_partition rows 50 ltac:(lia)) as (Hcat & _ & _).
  rewrite Hcat in Hsegs, Hlen.
  fold (upload_inventory_data_to_shopify rows wm s) in Hnew, Hlen.
  destruct (upload_inventory_data_to_shopify rows wm s) as [[out s'] r].
  simpl in Hnew, Hlen.
  exists new, segs. split_and!; [done | done | | done | |].
  - eapply Forall2_impl; [exact Hsegs|]. by intros d seg [Hd _].
  - rewrite <- (count_without_log is_set new), <- (count_without_log is_find new), Hfilter
      by (by intros []).
    apply count_concat_le. eapply Forall2_Forall_r; [exact Hsegs|].
    apply Forall_forall. by intros d _ seg [_ Hd].
  - rewrite <- (count_without_log is_find new), Hfilter by (by intros []).
    transitivity (length segs).
    + apply count_concat. eapply Forall2_Forall_r; [exact Hsegs|].
      apply Forall_forall. intros d _ seg [Hd _]. apply Hd.
    + apply Forall2_length in Hsegs. rewrite length_take in Hsegs. lia.
Qed.

(** The counts of a row's and of a batch's calls in a run that returns. *)
Lemma one_commit_counts (seg : list event) :
  one_commit_at_end seg -> count is_taken_commit seg = 1%nat /\ count is_log seg = 0%nat.
Proof.
  intros (pre & -> & Hpre). rewrite !count_app.
  assert (count is_taken_commit pre = 0%nat /\ count is_log pre = 0%nat) as [-> ->].
  { induction pre as [|e pre IH]; [done|]. simpl in Hpre.
    apply andb_prop in Hpre as [He Hpre]. destruct (IH Hpre) as [IH1 IH2].
    unfold count in *. rewrite !filter_cons.
    destruct e as [| | |[]|]; simpl in *; try done; rewrite ?IH1, ?IH2; done. }
  done.
Qed.

Lemma batch_segment_counts synced_on (wm : gmap string pyval) (batch : list Row) seg :
  batch_segment synced_on wm batch seg ->
  count is_taken_commit seg = length batch /\ count is_log seg = 1%nat.
Proof.
  intros (segs & st & msg & Hsegs & ->). rewrite !count_app.
  assert (count is_taken_commit (concat segs) = length batch /\
          count is_log (concat segs) = 0%nat) as [-> ->]; [|unfold count; simpl; lia].
  induction Hsegs as [|d seg batch segs [_ Hd] _ [IH1 IH2]]; [done|].
  simpl. rewrite !count_app, IH1, IH2.
  destruct (one_commit_counts _ Hd) as [-> ->]. done.
Qed.

(** X8. In a run that returns, the local commit has taken effect exactly
    once per row, and the log has received exactly one entry per batch of
    50 rows: none for an empty input, and [(n + 49) / 50] for [n] rows. *)
Theorem commits_and_log_entries `{!FloatFormat}
    (rows : list Row) (wm : gmap string pyval) (s : ext_state W) out s' :
  upload_inventory_data_to_shopify rows wm s = ((out, s'), Ok tt) ->
  exists new,
    calls s' = calls s ++ new /\
    count is_taken_commit new = length rows /\
    count is_log new = ((length rows + 49) / 50)%nat.
Proof.
  intros Hrun. unfold upload_inventory_data_to_shopify in Hrun.
  eapply for_each_segments in Hrun as (segs & Hsegs & Hcalls);
    [|intros b s0 b' s1; apply process_batch_segment].
  exists (concat segs). split; [done|].
  destruct (create_batch_partition rows 50 ltac:(lia)) as (Hcat & _ & _).
  assert (length (create_batch rows 50) = ((length rows + 49) / 50)%nat) as Hn.
  { rewrite create_batch_windows, length_fmap, length_seq. f_equal. lia. }
  rewrite <- Hn, <- Hcat at 1. clear Hn Hcat Hcalls.
  induction Hsegs as [|b seg bs segs Hb _ [IH1 IH2]]; [done|].
  simpl. rewrite !count_app, length_app, IH1, IH2.
  destruct (batch_segment_counts _ _ _ _ Hb) as [-> ->]. done.
Qed.

(** X9. The quantity of every inventory-level set call of a row is within
    one unit of the difference of the two quantities when neither is
    negative, and is that difference exactly when both are whole
    numbers. *)
Theorem pushed_quantity_close
    synced_on (wm : gmap string pyval) (d : Row) (s : ext_state W) :
  let '((d', s'), r) := process_row synced_on wm (d, s) in
  exists new,
    calls s' = calls s ++ new /\
    forall l i a ok,
      EvSet l i a ok ∈ new ->
      ((0 <= actual_qty d)%Q -> (0 <= reserved_qty d)%Q ->
       (actual_qty d - reserved_qty d - 1 < inject_Z a
        < actual_qty d - reserved_qty d + 1)%Q) /\
      (forall m k : Z,
          (actual_qty d == inject_Z m)%Q -> (reserved_qty d == inject_Z k)%Q ->
          a = m - k).
Proof.
  assert (forall a,
             a = cint (actual_qty d) - cint (reserved_qty d) ->
             ((0 <= actual_qty d)%Q -> (0 <= reserved_qty d)%Q ->
              (actual_qty d - reserved_qty d - 1 < inject_Z a
               < actual_qty d - reserved_qty d + 1)%Q) /\
             (forall m k : Z,
                 (actual_qty d == inject_Z m)%Q -> (reserved_qty d == inject_Z k)%Q ->
                 a = m - k)) as Hclose.
  { intros a ->. split.
    - intros Ha Hr.
      destruct (cint_truncates (actual_qty d)) as [[Ha1 Ha2] _]; [done|].
      destruct (cint_truncates (reserved_qty d)) as [[Hr1 Hr2] _]; [done|].
      rewrite <- Z.add_opp_r, inject_Z_plus, inject_Z_opp.
      generalize dependent (inject_Z (cint (actual_qty d))).
      generalize dependent (inject_Z (cint (reserved_qty d))).
      intros r1 Hr1 Hr2 a1 Ha1 Ha2. split; lra.
    - intros m k Hm Hk. f_equal; apply cint_whole; done. }
  exec; explicit_calls.
  all: intros l' i' a' ok' Hin; in_calls Hin; by apply Hclose.
Qed.

(** X10. A row that is left normally has one of three statuses: [Success],
    and then its failure reason is the one it came with; or [Failed] or
    [Not Found], and then it has a failure reason. *)
Theorem row_status_values
    synced_on (wm : gmap string pyval) (d : Row) (s : ext_state W) d' s' :
  process_row synced_on wm (d, s) = ((d', s'), Ok tt) ->
  (status d' = Some "Success" /\ failure_reason d' = failure_reason d) \/
  ((status d' = Some "Failed" \/ status d' = Some "Not Found") /\
   exists reason, failure_reason d' = Some reason).
Proof.
  exec; intros Hrun; simplify_eq; cbn; eauto 6.
Qed.

(** The calls of a loop, each one a log entry or about an element of the
    list. *)
Lemma for_each_about {X} (body : M (X * ext_state W) unit) (P : X -> event -> Prop) :
  (forall x s, exists new,
      calls (body (x, s)).1.2 = calls s ++ new /\
      Forall (fun e => is_log e = true \/ P x e) new) ->
  forall l s, exists new,
    calls (for_each body l s).1.2 = calls s ++ new /\
    Forall (fun e => is_log e = true \/ exists x, x ∈ l /\ P x e) new.
Proof.
  intros Hbody.
  apply (for_each_new body
           (fun l new => Forall (fun e => is_log e = true \/ exists x, x ∈ l /\ P x e) new)).
  - done.
  - intros x l a b Ha Hb. apply Forall_app. split.
    + eapply Forall_impl; [exact Ha|]. intros e [He|(y & Hy & He)]; [by left|].
      right. exists y. split; [|done]. apply elem_of_cons.
      apply list_elem_of_singleton in Hy. by left.
    + eapply Forall_impl; [exact Hb|]. intros e [He|(y & Hy & He)]; [by left|].
      right. exists y. split; [|done]. apply elem_of_cons. by right.
  - intros x s. destruct (Hbody x s) as (new & Hnew & HP). exists new. split; [done|].
    eapply Forall_impl; [exact HP|]. intros e [He|He]; [by left|].
    right. exists x. split; [|done]. by apply list_elem_of_singleton.
Qed.

Lemma upload_about `{!FloatFormat} (P : Row -> event -> Prop)
    (rows : list Row) (wm : gmap string pyval) (s : ext_state W) :
  (forall d s0, exists new,
      calls (process_row (now (world s)) wm (d, s0)).1.2 = calls s0 ++ new /\
      Forall (fun e => is_log e = true \/ P d e) new) ->
  exists new,
    calls (upload_inventory_data_to_shopify rows wm s).1.2 = calls s ++ new /\
    Forall (fun e => is_log e = true \/ exists d, d ∈ rows /\ P d e) new.
Proof.
  intros Hrow.
  destruct (create_batch_partition rows 50 ltac:(lia)) as (Hcat & _ & _).
  unfold upload_inventory_data_to_shopify.
  destruct (for_each_about (process_batch (now (world s)) wm)
              (fun b e => exists d, d ∈ b /\ P d e)) with
    (l := create_batch rows 50) (s := s) as (new & Hnew & HP).
  - intros batch s0.
    destruct (process_batch_run (now (world s)) wm batch s0) as (logged & _ & -> & Hlogged).
    destruct (for_each_about (process_row (now (world s)) wm) P Hrow batch s0)
      as (new & -> & Hnew).
    exists (new ++ logged). split; [by rewrite app_assoc|].
    apply Forall_app. split; [done|].
    destruct Hlogged as [->|(msg & ok & ->)]; [done|]. constructor; [by left | done].
  - exists new. split; [done|].
    eapply Forall_impl; [exact HP|]. intros e [He|(b & Hb & d & Hd & He)]; [by left|].
    right. exists d. split; [|done]. rewrite <- Hcat.
    apply list_elem_of_In, in_concat. exists b. split; by apply list_elem_of_In.
Qed.

(** X11. Every remote or local call of a run is about one of the rows it
    was given: a variant lookup is for the variant id of a row, an
    inventory-level set call carries the quantity of a row, and a
    sync-status update is for the ecom item of a row; whatever the
    collaborators do and however the run ends. *)
Theorem calls_are_about_rows `{!FloatFormat}
    (rows : list Row) (wm : gmap string pyval) (s : ext_state W) :
  let '((out, s'), r) := upload_inventory_data_to_shopify rows wm s in
  exists new,
    calls s' = calls s ++ new /\
    (forall vid ok, EvFind vid ok ∈ new ->
       exists d, d ∈ rows /\ variant_id d = Some vid) /\
    (forall l i a ok, EvSet l i a ok ∈ new ->
       exists d, d ∈ rows /\ a = cint (actual_qty d) - cint (reserved_qty d)) /\
    (forall i t ok, EvSync i t ok ∈ new ->
       exists d, d ∈ rows /\ ecom_item d = i).
Proof.
  destruct (upload_about
              (fun d e =>
                 (forall vid ok, e = EvFind vid ok -> variant_id d = Some vid) /\
                 (forall l i a ok, e = EvSet l i a ok ->
                    a = cint (actual_qty d) - cint (reserved_qty d)) /\
                 (forall i t ok, e = EvSync i t ok -> ecom_item d = i))
              rows wm s) as (new & Hcalls & Hnew).
  - intros d s0. exec; explicit_calls.
    all: repeat (apply Forall_cons; split; [right|]); try apply Forall_nil_2.
    all: split_and!; intros; simplify_eq; try done.
    all: try match goal with
         | H : nonempty _ = Some _ |- _ => by apply nonempty_Some in H as [? _]
         end.
  - destruct (upload_inventory_data_to_shopify rows wm s) as [[out s'] r].
    exists new. split; [done|]. rewrite Forall_forall in Hnew.
    split_and!.
    + intros vid ok Hin. destruct (Hnew _ Hin) as [?|(d & Hd & H1 & _ & _)]; [done|].
      exists d. eauto.
    + intros l i a ok Hin. destruct (Hnew _ Hin) as [?|(d & Hd & _ & H2 & _)]; [done|].
      exists d. eauto.
    + intros i t ok Hin. destruct (Hnew _ Hin) as [?|(d & Hd & _ & _ & H3)]; [done|].
      exists d. eauto.
Qed.

(** A loop whose every turn returns. *)
Lemma for_each_good {X} (body : M (X * ext_state W) unit)
    (P Q : X -> Prop) (R : event -> Prop) :
  (forall x s, P x -> exists x' s' new,
      body (x, s) = ((x', s'), Ok tt) /\ Q x' /\
      calls s' = calls s ++ new /\ Forall R new) ->
  forall l s, Forall P l -> exists l' s' new,
    for_each body l s = ((l', s'), Ok tt) /\ Forall Q l' /\ length l' = length l /\
    calls s' = calls s ++ new /\ Forall R new.
Proof.
  intros Hbody l. induction l as [|x l IH]; intros s Hl; simpl.
  { exists [], s, []. by rewrite app_nil_r. }
  apply Forall_cons in Hl as [Hx Hl].
  destruct (Hbody x s Hx) as (x' & s1 & a & -> & HQ & Ha & HRa).
  destruct (IH s1 Hl) as (l' & s2 & b & -> & HQl & Hlen & Hb & HRb).
  exists (x' :: l'), s2, (a ++ b). split_and!; [done | by constructor | by simpl; f_equal | |].
  - by rewrite Hb, Ha, app_assoc.
  - by apply Forall_app.
Qed.

(** The path of a row when nothing fails. *)
Lemma process_row_pushed synced_on (wm : gmap string pyval) (d : Row) (s : ext_state W) :
  (forall v w, exists w' variant,
      Variant_find v w = (w', Ok variant) /\
      nonzero (inventory_item_id variant) <> None) ->
  (forall l i a w, (InventoryLevel_set l i a w).2 = Ok tt) ->
  (forall e t w, (update_inventory_sync_status e t w).2 = Ok tt) ->
  (forall w, (db_commit w).2 = Ok tt) ->
  is_Some (wm !! warehouse d ≫= py_int) /\ is_Some (nonempty (variant_id d)) ->
  exists d' s' new,
    process_row synced_on wm (d, s) = ((d', s'), Ok tt) /\
    status d' = Some "Success" /\
    calls s' = calls s ++ new /\ Forall (fun e => is_log e = false) new.
Proof.
  intros Hfind Hset Hsync Hcommit [[loc Hloc] [vid Hvid]].
  rewrite (process_row_resolved _ _ _ _ _ Hloc).
  unfold push_row, try_except, lift, sync_status, commit, call, get_row, set_attr,
    mbind, M_bind, mret, M_ret. cbn. rewrite Hvid. cbn.
  destruct (Hfind vid (world s)) as (w1 & variant & -> & Hitem). cbn.
  destruct (nonzero (inventory_item_id variant)) as [item|]; [|done]. cbn.
  match goal with
  | |- context [InventoryLevel_set ?l ?i ?a ?w] =>
      destruct (InventoryLevel_set l i a w) as [w2 r2] eqn:E2;
      pose proof (Hset l i a w) as H2; rewrite E2 in H2
  end.
  simpl in H2. subst r2. cbn.
  match goal with
  | |- context [update_inventory_sync_status ?e ?t ?w] =>
      destruct (update_inventory_sync_status e t w) as [w3 r3] eqn:E3;
      pose proof (Hsync e t w) as H3; rewrite E3 in H3
  end.
  simpl in H3. subst r3. cbn.
  destruct (db_commit w3) as [w4 r4] eqn:E4.
  pose proof (Hcommit w3) as H4. rewrite E4 in H4. simpl in H4. subst r4. cbn.
  eexists _, _, _. split_and!; [reflexivity | done | |].
  - cbn. rewrite <- !app_assoc. reflexivity.
  - repeat constructor.
Qed.

(** The calls of a run under the map of one entry: the location they
    carry, and the row they are for. *)
Lemma upload_singleton_about `{!FloatFormat}
    (rows : list Row) (wh : string) (n : Z) (s : ext_state W) :
  exists new,
    calls (upload_inventory_data_to_shopify rows {[ wh := VInt n ]} s).1.2 = calls s ++ new /\
    Forall (fun e =>
              is_log e = true \/
              exists d, d ∈ rows /\
                (forall l i a ok, e = EvSet l i a ok -> l = Some n) /\
                (forall vid ok, e = EvFind vid ok -> variant_id d = Some vid)) new.
Proof.
  apply (upload_about
           (fun d e =>
              (forall l i a ok, e = EvSet l i a ok -> l = Some n) /\
              (forall vid ok, e = EvFind vid ok -> variant_id d = Some vid))).
  intros d s0. exec; explicit_calls.
  all: repeat (apply Forall_cons; split; [right|]); try apply Forall_nil_2.
  all: split_and!; intros; simplify_eq; try done.
  all: try match goal with
       | H : nonempty _ = Some _ |- _ => by apply nonempty_Some in H as [? _]
       end.
  all: match goal with
       | H : option_bind _ _ py_int _ = Some _ |- _ =>
           apply singleton_resolves in H as [_ ->]; done
       end.
Qed.

End PusherFacts.

(** ** Batch logger *)

Lemma Counter_foldl (l : list (option string)) (m : gmap (option string) nat)
    (x : option string) :
  default 0%nat
    (foldl (fun m x => <[ x := S (default 0%nat (m !! x)) ]> m) m l !! x) =
  (default 0%nat (m !! x) + length (filter (fun y => y = x) l))%nat.
Proof.
  revert m. induction l as [|y l IH]; intros m; simpl; [lia|].
  rewrite IH, filter_cons. rewrite lookup_insert.
  destruct (decide (y = x)) as [->|Hne]; simpl; lia.
Qed.

Lemma Counter_lookup (l : list (option string)) (x : option string) :
  default 0%nat (Counter l !! x) = length (filter (fun y => y = x) l).
Proof. unfold Counter. by rewrite Counter_foldl, lookup_empty. Qed.

Lemma count_statuses (batch : list Row) :
  length (filter (fun y => y = Some "Success") (status <$> batch)) =
  length (filter (fun d => status d = Some "Success") batch).
Proof.
  induction batch as [|d batch IH]; [done|].
  rewrite fmap_cons, !filter_cons. repeat case_decide; simpl; congruence.
Qed.

Lemma success_fraction_eq (batch : list Row) :
  let successes := length (filter (fun d => status d = Some "Success") batch) in
  (success_fraction batch ==
   Z.of_nat successes # Pos.of_nat (Nat.max (length batch) 1))%Q.
Proof.
  intros successes. unfold success_fraction.
  rewrite Counter_lookup, count_statuses. fold successes.
  rewrite Qmake_Qdiv. 
  replace (Z.pos (Pos.of_nat (Nat.max (length batch) 1)))
    with (Z.of_nat (Nat.max (length batch) 1)); [reflexivity|].
  rewrite <- positive_nat_Z, Nat2Pos.id; lia.
Qed.

Lemma batch_status_of_count (pct : Q) (k n : nat) :
  (pct == Z.of_nat k # Pos.of_nat n)%Q -> (0 < n)%nat ->
  batch_status pct =
  if decide (k = n) then "Success"
  else if decide (0 < k)%nat then "Partial Success" else "Failed".
Proof.
  intros Hpct Hn. unfold batch_status.
  assert (Z.pos (Pos.of_nat n) = Z.of_nat n) as Hp
      by (rewrite <- positive_nat_Z, Nat2Pos.id; lia).
  destruct (Qeq_bool pct 1) eqn:E1.
  - apply Qeq_bool_iff in E1. rewrite Hpct in E1. unfold Qeq in E1. simpl in E1.
    rewrite decide_True by lia. done.
  - apply Qeq_bool_neq in E1. rewrite Hpct in E1. unfold Qeq in E1. simpl in E1.
    rewrite decide_False by lia.
    destruct (Qle_bool pct 0) eqn:E2; simpl.
    + apply Qle_bool_iff in E2. rewrite Hpct in E2. unfold Qle in E2. simpl in E2.
      rewrite decide_False by lia. done.
    + assert (~ (pct <= 0)%Q) as E3 by (rewrite <- Qle_bool_iff; congruence).
      rewrite Hpct in E3. unfold Qle in E3. simpl in E3.
      rewrite decide_True by lia. done.
Qed.

Lemma count_all (batch : list Row) :
  Forall (fun d => status d = Some "Success") batch <->
  length (filter (fun d => status d = Some "Success") batch) = length batch.
Proof.
  induction batch as [|d batch IH]; [done|].
  rewrite Forall_cons, filter_cons.
  pose proof (length_filter (fun d => status d = Some "Success") batch).
  case_decide; simpl; [rewrite IH; naive_solver lia | split; [naive_solver | lia]].
Qed.

Lemma count_none (batch : list Row) :
  Forall (fun d => status d <> Some "Success") batch <->
  length (filter (fun d => status d = Some "Success") batch) = 0%nat.
Proof.
  induction batch as [|d batch IH]; [done|].
  rewrite Forall_cons, filter_cons.
  case_decide; simpl; [naive_solver | rewrite IH; naive_solver].
Qed.

Section Logger.

Context {W : Type} `{!Collaborators W} `{!FloatFormat}.

(** C5. The batch logger makes exactly one log entry. Its message reports
    the fraction of rows with status [Success], times 100, as a percentage.
    Its status is [Success] when the batch has rows and every row has status
    [Success], [Partial Success] when some but not all rows have status
    [Success], and [Failed] when no row has status [Success]. *)
Theorem log_batch_status_spec (batch : list Row) (s : ext_state W) :
  let successes := length (filter (fun d => status d = Some "Success") batch) in
  let pct := success_fraction batch in
  exists st msg w r,
    _log_batch_status batch s =
      ({| world := w; calls := calls s ++ [EvLog st msg (is_ok r)] |}, r) /\
    (pct == Z.of_nat successes # Pos.of_nat (Nat.max (length batch) 1))%Q /\
    contains msg (float_str (pct * 100)%Q +:+ "%") /\
    (batch <> [] -> Forall (fun d => status d = Some "Success") batch ->
     st = "Success") /\
    (Exists (fun d => status d = Some "Success") batch ->
     Exists (fun d => status d <> Some "Success") batch ->
     st = "Partial Success") /\
    (Forall (fun d => status d <> Some "Success") batch -> st = "Failed").
Proof.
  intros successes pct.
  destruct (log_batch_status_run batch s) as (st & msg & w & r & Hrun & -> & Hmsg).
  exists (batch_status pct), msg, w, r.
  pose proof (success_fraction_eq batch) as Hpct. cbn in Hpct. fold successes pct in Hpct.
  pose proof (length_filter (fun d => status d = Some "Success") batch) as Hle.
  fold successes in Hle.
  split_and!; [done | done | done | | |].
  - intros Hne Hall. apply count_all in Hall. fold successes in Hall.
    destruct batch as [|d batch]; [done|].
    rewrite (batch_status_of_count _ _ _ Hpct) by (simpl; lia).
    rewrite decide_True by (simpl in *; lia). done.
  - intros Hsome Hnot.
    assert (successes <> 0%nat) as H0.
    { intros H0. apply count_none in H0. apply Exists_exists in Hsome as (d & Hd & Hs).
      rewrite Forall_forall in H0. by apply (H0 d). }
    assert (successes <> length batch) as Hn.
    { intros Hn. apply count_all in Hn. apply Exists_exists in Hnot as (d & Hd & Hs).
      rewrite Forall_forall in Hn. by apply Hs, Hn. }
    rewrite (batch_status_of_count _ _ _ Hpct) by lia.
    rewrite decide_False by lia. rewrite decide_True by lia. done.
  - intros Hnone. apply count_none in Hnone. fold successes in Hnone.
    rewrite (batch_status_of_count _ _ _ Hpct) by lia.
    rewrite decide_False by lia. rewrite decide_False by lia. done.
Qed.

End Logger.

(** ** Eligibility filter *)

Section FilterFacts.

Variable MODULE_NAME : string.

(** The dict comprehension over rows with distinct names. *)
Lemma comprehension_lookup (l : list (string * option string)) (m : gmap string string)
    (k c : string) :
  NoDup l.*1 ->
  (forall p, p ∈ l -> m !! p.1 = None) ->
  foldl (fun m r =>
           match nonempty r.2 with
           | Some code => <[ r.1 := code ]> m
           | None => m
           end) m l !! k = Some c <->
  m !! k = Some c \/ exists v, (k, v) ∈ l /\ nonempty v = Some c.
Proof.
  revert m. induction l as [|[k0 v0] l IH]; intros m Hnd Hfresh; simpl.
  { split; [auto | intros [?|(v & []%elem_of_nil & _)]; done]. }
  apply NoDup_cons in Hnd as [Hk0 Hnd]. rewrite IH; [|done|].
  - destruct (nonempty v0) as [c0|] eqn:Hv0.
    + rewrite lookup_insert. split.
      * intros [Hm|(v & Hin & Hv)]; [|right; exists v; split; [by right | done]].
        case_decide; simplify_eq; [right; exists v0; split; [by left | done] | by left].
      * intros [Hm|(v & Hin & Hv)].
        -- left. case_decide; [|done]. simplify_eq.
           pose proof (Hfresh (k, v0)) as Hf. simpl in Hf.
           rewrite Hf in Hm by left. done.
        -- apply elem_of_cons in Hin as [?|Hin]; simplify_eq.
           ++ left. by rewrite decide_True.
           ++ right. by exists v.
    + split.
      * intros [Hm|(v & Hin & Hv)]; [by left | right; exists v; split; [by right | done]].
      * intros [Hm|(v & Hin & Hv)]; [by left|].
        apply elem_of_cons in Hin as [?|Hin]; simplify_eq. right. by exists v.
  - intros p Hp. destruct (nonempty v0); [|by apply Hfresh; right].
    rewrite lookup_insert_ne; [by apply Hfresh; right|].
    simpl. intros ->. apply Hk0. apply list_elem_of_fmap. by exists p.
Qed.

Lemma append_loop {A B} (look : A -> option B) (ok : B -> bool) (l acc : list A) :
  foldl (fun filtered d =>
           match look d with
           | Some b => if ok b then filtered ++ [d] else filtered
           | None => filtered
           end) acc l =
  acc ++ filter (fun d => Is_true match look d with Some b => ok b | None => false end) l.
Proof.
  revert acc. induction l as [|d l IH]; intros acc; simpl; [by rewrite app_nil_r|].
  rewrite IH, filter_cons. destruct (look d) as [b|]; simpl; [|done].
  destruct (ok b); simpl; [by rewrite <- app_assoc | done].
Qed.

Lemma filter_ext_in {A} (f g : A -> bool) (l : list A) :
  (forall x, x ∈ l -> f x = g x) ->
  filter (fun x => f x) l = filter (fun x => g x) l.
Proof.
  induction l as [|x l IH]; intros Hfg; [done|].
  rewrite !filter_cons, (Hfg x) by left. rewrite IH; [done|].
  intros y Hy. apply Hfg. by right.
Qed.

Lemma filter_none {A} (P : A -> Prop) `{!forall x, Decision (P x)} (l : list A) :
  (forall x, x ∈ l -> ~ P x) -> filter P l = [].
Proof.
  induction l as [|x l IH]; intros Hl; [done|].
  rewrite filter_cons, decide_False by (apply Hl; left).
  apply IH. intros y Hy. apply Hl. by right.
Qed.

Lemma nonzero_Some (o : option Z) (z : Z) :
  nonzero o = Some z <-> o = Some z /\ z <> 0.
Proof.
  destruct o as [y|]; simpl; [|naive_solver].
  destruct (Z.eqb_spec y 0); naive_solver.
Qed.

Lemma eligible_unfold (db : Database) (d : Row) :
  eligible MODULE_NAME db d = true <->
  exists name ei code it,
    ecom_item d = Some name /\ name <> "" /\
    tabEcommerce_Item db !! name = Some ei /\
    integration ei = MODULE_NAME /\
    erpnext_item_code ei = Some code /\ code <> "" /\
    tabItem db !! code = Some it /\
    custom_sync_to_shopify it = 1 /\ disabled it = 0.
Proof.
  unfold eligible. split.
  - destruct (nonempty (ecom_item d)) as [name|] eqn:Hname; simpl; [|done].
    apply nonempty_Some in Hname as [Hname Hne].
    destruct (tabEcommerce_Item db !! name) as [ei|] eqn:Hei; [|done].
    intros [Hint Hrest]%andb_prop. apply bool_decide_eq_true in Hint.
    destruct (nonempty (erpnext_item_code ei)) as [code|] eqn:Hcode; simpl in Hrest; [|done].
    apply nonempty_Some in Hcode as [Hcode Hcne].
    destruct (tabItem db !! code) as [it|] eqn:Hit; [|done].
    apply andb_prop in Hrest as [Hs%bool_decide_eq_true Hd%bool_decide_eq_true].
    by exists name, ei, code, it.
  - intros (name & ei & code & it & Hname & Hne & Hei & Hint & Hcode & Hcne & Hit & Hs & Hd).
    assert (nonempty (ecom_item d) = Some name) as -> by (by apply nonempty_Some).
    simpl. rewrite Hei.
    assert (nonempty (erpnext_item_code ei) = Some code) as -> by (by apply nonempty_Some).
    simpl. rewrite Hit. by rewrite !bool_decide_eq_true_2.
Qed.


(** What the two queries leave in the dict and in the set. *)
Lemma ecom_to_item_lookup (db : Database) (names : list string) (name c : string) :
  foldl (fun (m : gmap string string) r =>
           match nonempty r.2 with
           | Some code => <[ r.1 := code ]> m
           | None => m
           end) ∅ (get_all_Ecommerce_Item db names MODULE_NAME) !! name = Some c <->
  name ∈ names /\
  exists ei, tabEcommerce_Item db !! name = Some ei /\
             integration ei = MODULE_NAME /\
             nonempty (erpnext_item_code ei) = Some c.
Proof.
  rewrite comprehension_lookup.
  - rewrite lookup_empty. unfold get_all_Ecommerce_Item. split.
    + intros [?|(v & Hin & Hv)]; [done|].
      apply list_elem_of_fmap in Hin as ([k ei] & [= -> ->] & Hin).
      apply list_elem_of_filter in Hin as [[Hk Hint] Hin]. simpl in *.
      apply elem_of_map_to_list in Hin. eauto.
    + intros (Hin & ei & Hei & Hint & Hc). right. exists (erpnext_item_code ei).
      split; [|done]. apply list_elem_of_fmap. exists (name, ei). split; [done|].
      apply list_elem_of_filter. split; [done|]. by apply elem_of_map_to_list.
  - unfold get_all_Ecommerce_Item. rewrite <- list_fmap_compose.
    eapply sublist_NoDup; [apply (NoDup_fst_map_to_list (tabEcommerce_Item db))|].
    apply (fmap_sublist fst). apply sublist_filter.
  - intros p _. apply lookup_empty.
Qed.

Lemma allowed_items_elem (db : Database) (values : list string) (c : string) :
  c ∈ (list_to_set (get_all_Item db values) : gset string) <->
  c ∈ values /\
  exists it, tabItem db !! c = Some it /\
             custom_sync_to_shopify it = 1 /\ disabled it = 0.
Proof.
  rewrite elem_of_list_to_set. unfold get_all_Item. split.
  - intros ([k it] & -> & Hin)%list_elem_of_fmap.
    apply list_elem_of_filter in Hin as [(Hk & Hs & Hd) Hin]. simpl in *.
    apply elem_of_map_to_list in Hin. eauto.
  - intros (Hin & it & Hit & Hs & Hd). apply list_elem_of_fmap.
    exists (c, it). split; [done|]. apply list_elem_of_filter.
    split; [done|]. by apply elem_of_map_to_list.
Qed.

(** C8. The eligibility filter returns, in their order, exactly the rows
    whose ecom-item reference resolves, by the lookup restricted to the
    integration, to an item code of an item that is sync-enabled and not
    disabled; rows without a reference, or whose reference resolves to no
    item code, are left out; and on an input without any reference (the
    empty input in particular) it returns the empty list without sending a
    query. *)
Theorem filter_to_flagged_items_spec (db : Database) (inventory_levels : list Row) :
  (_filter_to_flagged_items MODULE_NAME db inventory_levels).2 =
    filter (fun d => eligible MODULE_NAME db d) inventory_levels /\
  (forall d, eligible MODULE_NAME db d = true <->
     exists name ei code it,
       ecom_item d = Some name /\ name <> "" /\
       tabEcommerce_Item db !! name = Some ei /\
       integration ei = MODULE_NAME /\
       erpnext_item_code ei = Some code /\ code <> "" /\
       tabItem db !! code = Some it /\
       custom_sync_to_shopify it = 1 /\ disabled it = 0) /\
  (omap (fun d => nonempty (ecom_item d)) inventory_levels = [] ->
   _filter_to_flagged_items MODULE_NAME db inventory_levels = ([], [])).
Proof.
  split_and!; [| apply eligible_unfold |].
  - unfold _filter_to_flagged_items.
    destruct inventory_levels as [|d0 rows] eqn:Hrows; [done|].
    cbv beta iota zeta. rewrite <- Hrows. clear d0 rows Hrows.
    destruct (omap _ inventory_levels) as [|n0 names0] eqn:Hnames.
    + cbn [snd]. symmetry. apply filter_none. intros d Hd He.
      apply Is_true_true, eligible_unfold in He
        as (name & _ & _ & _ & Hname & Hne & _).
      assert (name ∈ omap (fun d => nonempty (ecom_item d)) inventory_levels) as Hin.
      { apply list_elem_of_omap. exists d. split; [done|]. by apply nonempty_Some. }
      rewrite Hnames in Hin. by apply elem_of_nil in Hin.
    + rewrite <- Hnames. clear n0 names0 Hnames. cbn [snd].
      rewrite append_loop. cbn [app].
      apply filter_ext_in. intros d Hd. apply Bool.eq_iff_eq_true.
      rewrite eligible_unfold. split.
      * destruct (ecom_item d) as [name|] eqn:Hname; [|done]. cbn.
        destruct (foldl _ _ _ !! name) as [code|] eqn:Hcode; [|done].
        intros Hallowed%bool_decide_eq_true.
        apply ecom_to_item_lookup in Hcode as (Hin & ei & Hei & Hint & Hc).
        apply allowed_items_elem in Hallowed as (_ & it & Hit & Hs & Hdis).
        apply list_elem_of_omap in Hin as (d' & _ & [_ Hne]%nonempty_Some).
        apply nonempty_Some in Hc as [Hc Hcne].
        by exists name, ei, code, it.
      * intros (name & ei & code & it & Hname & Hne & Hei & Hint & Hc & Hcne & Hit & Hs & Hdis).
        rewrite Hname. cbn.
        assert (foldl (fun (m : gmap string string) r =>
                         match nonempty r.2 with
                         | Some code => <[ r.1 := code ]> m
                         | None => m
                         end) ∅
                  (get_all_Ecommerce_Item db
                     (omap (fun d => nonempty (ecom_item d)) inventory_levels)
                     MODULE_NAME) !! name = Some code) as Hcode.
        { apply ecom_to_item_lookup. split.
          - apply list_elem_of_omap. exists d. split; [done|]. by apply nonempty_Some.
          - exists ei. split_and!; [done | done | by apply nonempty_Some]. }
        rewrite Hcode. apply bool_decide_eq_true, allowed_items_elem. split; [|eauto].
        apply list_elem_of_fmap. exists (name, code). split; [done|].
        by apply elem_of_map_to_list.
  - unfold _filter_to_flagged_items. intros Hnames.
    destruct inventory_levels as [|d0 rows]; [done|].
    cbv beta iota zeta. by rewrite Hnames.
Qed.

End FilterFacts.

(** ** A run in which nothing fails, and the batch log *)

Lemma contains_concat (sep x : string) (l : list string) :
  x ∈ l -> contains (String.concat sep l) x.
Proof.
  induction l as [|y l IH]; [by intros ?%elem_of_nil|].
  intros [->|Hx]%elem_of_cons.
  - destruct l; simpl; auto with text.
  - destruct l as [|z l]; [by apply elem_of_nil in Hx|].
    change (contains (y +:+ sep +:+ String.concat sep (z :: l)) x).
    auto with text.
Qed.

Section RunFacts.

Context {W : Type} `{!Collaborators W} `{!FloatFormat}.

(** X12. When no collaborator fails, every variant has an inventory item
    id, and every row has a variant id and a warehouse that the map sends
    to an integer, the run returns, every row comes back with status
    [Success], and every log entry is written with status [Success]. *)
Theorem all_rows_pushed
    (rows : list Row) (wm : gmap string pyval) (s : ext_state W) :
  (forall v w, exists w' variant,
      Variant_find v w = (w', Ok variant) /\
      nonzero (inventory_item_id variant) <> None) ->
  (forall l i a w, (InventoryLevel_set l i a w).2 = Ok tt) ->
  (forall e t w, (update_inventory_sync_status e t w).2 = Ok tt) ->
  (forall w, (db_commit w).2 = Ok tt) ->
  (forall st msg m w, (create_shopify_log st msg m w).2 = Ok tt) ->
  Forall (fun d => is_Some (wm !! warehouse d ≫= py_int) /\
                   is_Some (nonempty (variant_id d))) rows ->
  exists out s' new,
    upload_inventory_data_to_shopify rows wm s = ((out, s'), Ok tt) /\
    Forall (fun d => status d = Some "Success") (concat out) /\
    calls s' = calls s ++ new /\
    forall st msg ok, EvLog st msg ok ∈ new -> st = "Success" /\ ok = true.
Proof.
  intros Hfind Hset Hsync Hcommit Hlog Hrows.
  pose (R := fun e : event =>
               forall st msg ok, e = EvLog st msg ok -> st = "Success" /\ ok = true).
  destruct (create_batch_partition rows 50 ltac:(lia)) as (Hcat & Hlen & _).
  unfold upload_inventory_data_to_shopify.
  destruct (for_each_good (process_batch (now (world s)) wm)
              (fun b => (0 < length b)%nat /\
                        Forall (fun d => is_Some (wm !! warehouse d ≫= py_int) /\
                                         is_Some (nonempty (variant_id d))) b)
              (Forall (fun d => status d = Some "Success")) R)
    with (l := create_batch rows 50) (s := s)
    as (out & s' & new & Hrun & Hout & _ & Hcalls & Hnew).
  - intros b s0 [Hb HP]. unfold process_batch.
    destruct (for_each_good (process_row (now (world s)) wm)
                (fun d => is_Some (wm !! warehouse d ≫= py_int) /\
                          is_Some (nonempty (variant_id d)))
                (fun d => status d = Some "Success")
                (fun e => is_log e = false))
      with (l := b) (s := s0) as (b' & s1 & new & -> & Hb' & Hlen' & Hcalls & Hnew).
    { intros d s1 Hd. by apply process_row_pushed. }
    { done. }
    cbn. unfold _log_batch_status, _log, call.
    destruct (create_shopify_log _ _ _ _) as [w r] eqn:Hc.
    match type of Hc with
    | create_shopify_log ?a ?b ?c ?w0 = _ =>
        pose proof (Hlog a b c w0) as Hr; rewrite Hc in Hr
    end.
    simpl in Hr. subst r.
    eexists _, _, _. split_and!; [reflexivity | done | |].
    + cbn. rewrite Hcalls, <- app_assoc. reflexivity.
    + apply Forall_app. split.
      * eapply Forall_impl; [exact Hnew|]. intros e He st msg ok ->. done.
      * constructor; [|done]. intros st msg ok [= <- _ <-]. split; [|done].
        rewrite (batch_status_of_count _ (length b') (length b'));
          [by rewrite decide_True | | lia].
        pose proof (success_fraction_eq b') as Heq. cbv zeta in Heq.
        apply count_all in Hb'. rewrite Hb' in Heq.
        replace (Nat.max (length b') 1) with (length b') in Heq by lia.
        exact Heq.
  - apply Forall_forall. intros b Hb. split.
    + rewrite Forall_forall in Hlen. by apply Hlen.
    + rewrite <- Hcat in Hrows. apply Forall_concat in Hrows.
      rewrite Forall_forall in Hrows. by apply Hrows.
  - exists out, s', new. split_and!; [done | by apply Forall_concat | done |].
    intros st msg ok Hin. rewrite Forall_forall in Hnew. by eapply Hnew.
Qed.

(** X13. The entry that the batch logger writes lists every row of the
    batch: after the header of the four columns, its message contains the
    line of each row, made of the row's variant id, location id, status
    and failure reason. *)
Theorem log_message_lists_rows (batch : list Row) (s : ext_state W) :
  exists st msg ok,
    calls (_log_batch_status batch s).1 = calls s ++ [EvLog st msg ok] /\
    contains msg "variant_id,location_id,status,failure_reason" /\
    Forall (fun d =>
              contains msg
                (str_opt (variant_id d) +:+ "," +:+
                 from_option pretty "None" (shopify_location_id d) +:+ "," +:+
                 str_opt (status d) +:+ "," +:+
                 default "" (failure_reason d))) batch.
Proof.
  unfold _log_batch_status, _log, call.
  destruct (create_shopify_log _ _ _ _) as [w r]. cbn.
  eexists _, _, _. split_and!; [reflexivity | auto 10 with text |].
  apply Forall_forall. intros d Hd.
  do 7 apply contains_app_r.
  apply (contains_concat nl (row_line d)). apply list_elem_of_fmap. eauto.
Qed.

(** X14. The fraction that the batch logger reports lies between 0 and 1,
    the empty batch included: the percentage of its message is between 0
    and 100. *)
Theorem success_fraction_bounds (batch : list Row) :
  (0 <= success_fraction batch <= 1)%Q /\
  (0 <= success_fraction batch * 100 <= 100)%Q.
Proof.
  pose proof (success_fraction_eq batch) as Heq. cbv zeta in Heq.
  pose proof (length_filter (fun d => status d = Some "Success") batch) as Hle.
  assert (0 <= success_fraction batch <= 1)%Q as Hb.
  { rewrite Heq. unfold Qle. simpl.
    assert (Z.pos (Pos.of_nat (Nat.max (length batch) 1)) =
            Z.of_nat (Nat.max (length batch) 1)) as ->
        by (rewrite <- positive_nat_Z, Nat2Pos.id; lia).
    lia. }
  split; [done|]. split; lra.
Qed.

End RunFacts.

(** ** The filter, row by row *)

Section FilterLaws.

Variable MODULE_NAME : string.

(** The rows kept are the rows that pass the direct lookups. *)
Lemma filter_rows_eligible (db : Database) (inventory_levels : list Row) :
  (_filter_to_flagged_items MODULE_NAME db inventory_levels).2 =
  filter (fun d => eligible MODULE_NAME db d) inventory_levels.
Proof.
  unfold _filter_to_flagged_items.
  destruct inventory_levels as [|d0 rows] eqn:Hrows; [done|].
  cbv beta iota zeta. rewrite <- Hrows. clear d0 rows Hrows.
  destruct (omap _ inventory_levels) as [|n0 names0] eqn:Hnames.
  - cbn [snd]. symmetry. apply filter_none. intros d Hd He.
    apply Is_true_true, eligible_unfold in He
      as (name & _ & _ & _ & Hname & Hne & _).
    assert (name ∈ omap (fun d => nonempty (ecom_item d)) inventory_levels) as Hin.
    { apply list_elem_of_omap. exists d. split; [done|]. by apply nonempty_Some. }
    rewrite Hnames in Hin. by apply elem_of_nil in Hin.
  - rewrite <- Hnames. clear n0 names0 Hnames. cbn [snd].
    rewrite append_loop. cbn [app].
    apply filter_ext_in. intros d Hd. apply Bool.eq_iff_eq_true.
    rewrite eligible_unfold. split.
    + destruct (ecom_item d) as [name|] eqn:Hname; [|done]. cbn.
      destruct (foldl _ _ _ !! name) as [code|] eqn:Hcode; [|done].
      intros Hallowed%bool_decide_eq_true.
      apply ecom_to_item_lookup in Hcode as (Hin & ei & Hei & Hint & Hc).
      apply allowed_items_elem in Hallowed as (_ & it & Hit & Hs & Hdis).
      apply list_elem_of_omap in Hin as (d' & _ & [_ Hne]%nonempty_Some).
      apply nonempty_Some in Hc as [Hc Hcne].
      by exists name, ei, code, it.
    + intros (name & ei & code & it & Hname & Hne & Hei & Hint & Hc & Hcne & Hit & Hs & Hdis).
      rewrite Hname. cbn.
      assert (foldl (fun (m : gmap string string) r =>
                       match nonempty r.2 with
                       | Some code => <[ r.1 := code ]> m
                       | None => m
                       end) ∅
                (get_all_Ecommerce_Item db
                   (omap (fun d => nonempty (ecom_item d)) inventory_levels)
                   MODULE_NAME) !! name = Some code) as Hcode.
      { apply ecom_to_item_lookup. split.
        - apply list_elem_of_omap. exists d. split; [done|]. by apply nonempty_Some.
        - exists ei. split_and!; [done | done | by apply nonempty_Some]. }
      rewrite Hcode. apply bool_decide_eq_true, allowed_items_elem. split; [|eauto].
      apply list_elem_of_fmap. exists (name, code). split; [done|].
      by apply elem_of_map_to_list.
Qed.

(** X15. The filter decides row by row, although it queries for all the
    rows at once: filtering two lists one after the other gives the same
    rows as filtering them together, filtering again what the filter kept
    changes nothing, and the rows kept are rows of the input, in their
    order and as often as they occur there. *)
Theorem filter_row_by_row (db : Database) (l1 l2 : list Row) :
  (_filter_to_flagged_items MODULE_NAME db (l1 ++ l2)).2 =
    (_filter_to_flagged_items MODULE_NAME db l1).2 ++
    (_filter_to_flagged_items MODULE_NAME db l2).2 /\
  (_filter_to_flagged_items MODULE_NAME db
     (_filter_to_flagged_items MODULE_NAME db l1).2).2 =
    (_filter_to_flagged_items MODULE_NAME db l1).2 /\
  sublist (_filter_to_flagged_items MODULE_NAME db l1).2 l1.
Proof.
  rewrite !filter_rows_eligible. split_and!.
  - apply filter_app.
  - apply list_filter_filter_l. done.
  - apply sublist_filter.
Qed.

(** X16. The filter asks the database only about what the rows refer to:
    the query on ecom items is restricted to the integration and names
    only non-empty references of rows, and the query on items names only
    item codes that ecom items of the integration, referred to by rows,
    carry. *)
Theorem filter_queries_scope (db : Database) (inventory_levels : list Row) :
  Forall (fun q =>
            match q with
            | QEcommerceItem names integ =>
                integ = MODULE_NAME /\
                Forall (fun n => n <> "" /\
                                 exists d, d ∈ inventory_levels /\ ecom_item d = Some n) names
            | QItem names =>
                Forall (fun c => exists d n ei,
                                   d ∈ inventory_levels /\ ecom_item d = Some n /\
                                   tabEcommerce_Item db !! n = Some ei /\
                                   integration ei = MODULE_NAME /\
                                   erpnext_item_code ei = Some c) names
            end)
         (_filter_to_flagged_items MODULE_NAME db inventory_levels).1.
Proof.
  unfold _filter_to_flagged_items.
  destruct inventory_levels as [|d0 rows] eqn:Hrows; [done|].
  cbv beta iota zeta. rewrite <- Hrows. clear d0 rows Hrows.
  destruct (omap _ inventory_levels) as [|n0 names0] eqn:Hnames; [done|].
  rewrite <- Hnames. clear n0 names0 Hnames. cbn [fst].
  assert (forall n, n ∈ omap (fun d => nonempty (ecom_item d)) inventory_levels ->
                    n <> "" /\ exists d, d ∈ inventory_levels /\ ecom_item d = Some n)
    as Hnames.
  { intros n (d & Hd & [Hn Hne]%nonempty_Some)%list_elem_of_omap. eauto. }
  repeat constructor.
  - apply Forall_forall. exact Hnames.
  - apply Forall_forall. intros c ([n c'] & -> & Hin)%list_elem_of_fmap.
    apply elem_of_map_to_list, ecom_to_item_lookup in Hin
      as (Hn & ei & Hei & Hint & [Hc _]%nonempty_Some).
    destruct (Hnames n Hn) as (_ & d & Hd & Hdn). simpl. eauto 10.
Qed.

End FilterLaws.

(** ** Sync orchestrator *)

Lemma resolved_warehouse (setting : Setting) (default_wh : option string) (loc : Z) :
  _get_numeric_location_id setting default_wh = Ok loc ->
  exists wh, default_wh = Some wh /\ wh <> "" /\ truthy default_wh = true.
Proof.
  unfold _get_numeric_location_id.
  destruct (truthy default_wh) eqn:Ht; [|done].
  apply truthy_true in Ht as (wh & -> & Hwh). eauto.
Qed.

Lemma unresolved_warehouse (setting : Setting) (default_wh : option string) :
  default ∅ (get_erpnext_to_integration_wh_mapping setting) !! str_opt default_wh
    ≫= py_int = None ->
  exists e, _get_numeric_location_id setting default_wh = Raise e /\
            contains (str_exn e) (str_opt default_wh).
Proof.
  unfold _get_numeric_location_id. intros Hnone.
  destruct (truthy default_wh).
  - destruct (_ !! str_opt default_wh) as [v|]; simpl in *.
    + rewrite Hnone. eexists. split; [done|]. simpl. auto 10 with text.
    + eexists. split; [done|]. simpl. auto with text.
  - eexists. split; [done|]. simpl. auto with text.
Qed.

Section OrchestratorFacts.

Context {W : Type} `{!Collaborators W} `{!FloatFormat} `{!Site W}.

Variable MODULE_NAME : string.

(** The orchestrator once the settings allow the push and the location is
    resolved: what it does with the answer of the inventory query. *)
Lemma run_push_configured (setting : ShopifySetting.doc) (s : ext_state W)
    (wh : string) (loc : Z) (w1 : W) (rows0 : list Row) :
  ShopifySetting.is_enabled setting = true ->
  ShopifySetting.update_erpnext_stock_levels_to_shopify setting <> 0 ->
  ShopifySetting.warehouse setting = Some wh ->
  _get_numeric_location_id (ShopifySetting.mapping setting) (Some wh) = Ok loc ->
  get_inventory_levels [wh] MODULE_NAME (world s) = (w1, Ok rows0) ->
  let s1 := {| world := w1; calls := calls s |} in
  _run_push_for_default_warehouse MODULE_NAME setting s =
  match rows0 with
  | [] => _log "Success" ("No inventory rows found for Default Warehouse: " +:+ wh) s1
  | _ =>
      let rows := filter (fun d => eligible MODULE_NAME (database w1) d) rows0 in
      match rows with
      | [] =>
          _log "Success"
               "No flagged items to sync (custom_sync_to_shopify=1 & not disabled)." s1
      | _ => temp_shopify_session (push rows {[ wh := VInt loc ]}) s1
      end
  end.
Proof.
  intros Hen Hflag Hwh Hloc Hrows s1. unfold _run_push_for_default_warehouse.
  rewrite Hen, Hwh. apply Z.eqb_neq in Hflag. rewrite Hflag. cbn [negb orb].
  destruct (resolved_warehouse _ _ _ Hloc) as (? & _ & _ & ->). cbn [negb].
  rewrite Hloc. unfold mbind, M_bind, ask. cbn. rewrite Hrows. fold s1.
  destruct rows0 as [|d0 rows0']; [done|].
  cbn [world s1]. rewrite filter_rows_eligible. reflexivity.
Qed.

(** X17. The orchestrator reaches the pusher only when the settings are
    enabled, the push direction is switched on, the default warehouse is
    set and resolves to an integer location id, and some row of that
    warehouse belongs to a flagged item; the pusher then gets the flagged
    rows and the map of one entry, the warehouse and its location id. In
    every other case the orchestrator makes no call but at most one log
    entry, of status [Error] or [Success]. *)
Theorem push_only_when_configured (setting : ShopifySetting.doc) (s : ext_state W) :
  (exists wh loc w1 rows0,
      ShopifySetting.is_enabled setting = true /\
      ShopifySetting.update_erpnext_stock_levels_to_shopify setting <> 0 /\
      ShopifySetting.warehouse setting = Some wh /\ wh <> "" /\
      _get_numeric_location_id (ShopifySetting.mapping setting) (Some wh) = Ok loc /\
      get_inventory_levels [wh] MODULE_NAME (world s) = (w1, Ok rows0) /\
      filter (fun d => eligible MODULE_NAME (database w1) d) rows0 <> [] /\
      _run_push_for_default_warehouse MODULE_NAME setting s =
        temp_shopify_session
          (push (filter (fun d => eligible MODULE_NAME (database w1) d) rows0)
                {[ wh := VInt loc ]})
          {| world := w1; calls := calls s |}) \/
  (exists logged,
      calls (_run_push_for_default_warehouse MODULE_NAME setting s).1 =
        calls s ++ logged /\
      (logged = [] \/
       exists st msg ok, logged = [EvLog st msg ok] /\ (st = "Error" \/ st = "Success"))).
Proof.
  destruct (ShopifySetting.is_enabled setting) eqn:Hen; cycle 1.
  { right. exists []. unfold _run_push_for_default_warehouse. rewrite Hen. cbn.
    rewrite app_nil_r. auto. }
  destruct (decide (ShopifySetting.update_erpnext_stock_levels_to_shopify setting = 0))
    as [Hflag|Hflag].
  { right. exists []. unfold _run_push_for_default_warehouse. rewrite Hen, Hflag. cbn.
    rewrite app_nil_r. auto. }
  destruct (_get_numeric_location_id (ShopifySetting.mapping setting)
              (ShopifySetting.warehouse setting)) as [loc|e] eqn:Hloc; cycle 1.
  { right. unfold _run_push_for_default_warehouse. rewrite Hen, Hloc.
    apply Z.eqb_neq in Hflag. rewrite Hflag. cbn [negb orb].
    destruct (truthy (ShopifySetting.warehouse setting)); cbn [negb].
    all: unfold _log, call; destruct (create_shopify_log _ _ _ _) as [w r]; cbn.
    all: eexists; split; [reflexivity|]; right; eauto 10. }
  destruct (resolved_warehouse _ _ _ Hloc) as (wh & Hwh & Hne & _).
  rewrite Hwh in Hloc.
  destruct (get_inventory_levels [wh] MODULE_NAME (world s)) as [w1 [rows0|e]] eqn:Hrows;
    cycle 1.
  { right. exists []. unfold _run_push_for_default_warehouse. rewrite Hen, Hwh, Hloc.
    apply Z.eqb_neq in Hflag. rewrite Hflag. cbn [negb orb].
    assert (truthy (Some wh) = true) as -> by (apply truthy_true; eauto).
    unfold mbind, M_bind, ask. cbn. rewrite Hrows. cbn. rewrite app_nil_r. auto. }
  rewrite (run_push_configured setting s wh loc w1 rows0) by done.
  destruct rows0 as [|d0 rows0'] eqn:Hrows0.
  { right. unfold _log, call. destruct (create_shopify_log _ _ _ _) as [w r]. cbn.
    eexists. split; [reflexivity|]. right. eauto 10. }
  rewrite <- Hrows0.
  destruct (filter _ rows0) as [|d1 rows1] eqn:Hfilter.
  { right. unfold _log, call. destruct (create_shopify_log _ _ _ _) as [w r]. cbn.
    eexists. split; [reflexivity|]. right. eauto 10. }
  left. exists wh, loc, w1, rows0. subst rows0. rewrite Hfilter.
  split_and!; done.
Qed.

(** X18. With the settings enabled and the push direction switched on, a
    default warehouse that is not set, or is absent from the warehouse
    mapping, or is mapped to a value that is no integer, ends the
    orchestrator with one log entry of status [Error] and nothing else:
    the inventory is not queried and the pusher is not reached. For a
    warehouse that is set, the message names it. *)
Theorem unresolved_default_warehouse (setting : ShopifySetting.doc) (s : ext_state W) :
  ShopifySetting.is_enabled setting = true ->
  ShopifySetting.update_erpnext_stock_levels_to_shopify setting <> 0 ->
  truthy (ShopifySetting.warehouse setting) = false \/
  default ∅ (get_erpnext_to_integration_wh_mapping (ShopifySetting.mapping setting))
    !! str_opt (ShopifySetting.warehouse setting) ≫= py_int = None ->
  exists msg,
    (let (w', r) :=
       create_shopify_log "Error" msg "update_inventory_on_shopify" (world s) in
     _run_push_for_default_warehouse MODULE_NAME setting s =
       ({| world := w'; calls := calls s ++ [EvLog "Error" msg (is_ok r)] |}, r)) /\
    (truthy (ShopifySetting.warehouse setting) = true ->
     contains msg (str_opt (ShopifySetting.warehouse setting))).
Proof.
  intros Hen Hflag Hwh. unfold _run_push_for_default_warehouse.
  rewrite Hen. apply Z.eqb_neq in Hflag. rewrite Hflag. cbn [negb orb].
  destruct (truthy (ShopifySetting.warehouse setting)) eqn:Ht; cbn [negb].
  - destruct Hwh as [?|Hnone]; [done|].
    destruct (unresolved_warehouse _ _ Hnone) as (e & -> & He).
    exists (str_exn e). unfold _log, call.
    destruct (create_shopify_log _ _ _ _) as [w r].
    split; [reflexivity | intros _; exact He].
  - exists "Default Warehouse is not set on Shopify Setting (field: warehouse).".
    unfold _log, call.
    destruct (create_shopify_log _ _ _ _) as [w r]. split; [reflexivity | done].
Qed.

(** X19. When the push is configured and the inventory query answers with
    rows none of which belongs to a flagged item, or with no row at all,
    the orchestrator ends with one log entry of status [Success] and
    nothing else: the pusher is not reached. When there is no row, the
    message names the default warehouse. *)
Theorem nothing_to_push_logged
    (setting : ShopifySetting.doc) (s : ext_state W) (loc : Z) (w1 : W)
    (rows0 : list Row) :
  ShopifySetting.is_enabled setting = true ->
  ShopifySetting.update_erpnext_stock_levels_to_shopify setting <> 0 ->
  _get_numeric_location_id (ShopifySetting.mapping setting)
                           (ShopifySetting.warehouse setting) = Ok loc ->
  get_inventory_levels [str_opt (ShopifySetting.warehouse setting)] MODULE_NAME
                       (world s) = (w1, Ok rows0) ->
  Forall (fun d => eligible MODULE_NAME (database w1) d = false) rows0 ->
  exists msg,
    (let (w', r) := create_shopify_log "Success" msg "update_inventory_on_shopify" w1 in
     _run_push_for_default_warehouse MODULE_NAME setting s =
       ({| world := w'; calls := calls s ++ [EvLog "Success" msg (is_ok r)] |}, r)) /\
    (rows0 = [] -> contains msg (str_opt (ShopifySetting.warehouse setting))).
Proof.
  intros Hen Hflag Hloc Hrows Hnone.
  destruct (resolved_warehouse _ _ _ Hloc) as (wh & Hwh & Hne & _).
  rewrite Hwh in Hloc, Hrows. simpl in Hrows.
  rewrite (run_push_configured setting s wh loc w1 rows0) by done.
  rewrite Hwh. simpl.
  destruct rows0 as [|d0 rows0'] eqn:Hrows0.
  { exists ("No inventory rows found for Default Warehouse: " +:+ wh).
    unfold _log, call. destruct (create_shopify_log _ _ _ _) as [w r]. cbn.
    split; [reflexivity|]. auto with text. }
  rewrite <- Hrows0 in *.
  rewrite (filter_none (fun d => eligible MODULE_NAME (database w1) d)).
  - exists "No flagged items to sync (custom_sync_to_shopify=1 & not disabled).".
    unfold _log, call. destruct (create_shopify_log _ _ _ _) as [w r]. cbn.
    split; [reflexivity|]. by subst rows0.
  - intros d Hd He. rewrite Forall_forall in Hnone.
    rewrite (Hnone d Hd) in He. done.
Qed.

(** X20. When the session of the decorator lets the pusher through, a
    configured run of the orchestrator sets inventory levels at the
    location of the default warehouse only, and looks up variants of
    flagged rows of the inventory query only. *)
Theorem pushes_flagged_rows_to_default_location
    (setting : ShopifySetting.doc) (s : ext_state W) (loc : Z) (w1 : W)
    (rows0 : list Row) :
  (forall m s0, temp_shopify_session m s0 = m s0) ->
  ShopifySetting.is_enabled setting = true ->
  ShopifySetting.update_erpnext_stock_levels_to_shopify setting <> 0 ->
  _get_numeric_location_id (ShopifySetting.mapping setting)
                           (ShopifySetting.warehouse setting) = Ok loc ->
  get_inventory_levels [str_opt (ShopifySetting.warehouse setting)] MODULE_NAME
                       (world s) = (w1, Ok rows0) ->
  exists new,
    calls (_run_push_for_default_warehouse MODULE_NAME setting s).1 = calls s ++ new /\
    (forall l i a ok, EvSet l i a ok ∈ new -> l = Some loc) /\
    (forall vid ok, EvFind vid ok ∈ new ->
       exists d, d ∈ rows0 /\ eligible MODULE_NAME (database w1) d = true /\
                 variant_id d = Some vid).
Proof.
  intros Hsession Hen Hflag Hloc Hrows.
  destruct (resolved_warehouse _ _ _ Hloc) as (wh & Hwh & Hne & _).
  rewrite Hwh in Hloc, Hrows. simpl in Hrows.
  rewrite (run_push_configured setting s wh loc w1 rows0) by done.
  assert (forall st msg (s1 : ext_state W), exists new,
             calls (_log st msg s1).1 = calls s1 ++ new /\
             (forall l i a ok, EvSet l i a ok ∈ new -> l = Some loc) /\
             (forall vid ok, EvFind vid ok ∈ new ->
                exists d, d ∈ rows0 /\ eligible MODULE_NAME (database w1) d = true /\
                          variant_id d = Some vid)) as Hlogged.
  { intros st msg s1. unfold _log, call.
    destruct (create_shopify_log _ _ _ _) as [w r]. cbn.
    eexists. split; [reflexivity|].
    split; intros; repeat match goal with
                          | H : _ ∈ [_] |- _ => apply list_elem_of_singleton in H
                          end; done. }
  destruct rows0 as [|d0 rows0'] eqn:Hrows0;
    [exact (Hlogged _ _ {| world := w1; calls := calls s |})|].
  rewrite <- Hrows0 in *.
  destruct (filter _ rows0) as [|d1 rows1] eqn:Hfilter;
    [exact (Hlogged _ _ {| world := w1; calls := calls s |})|].
  cbv beta iota zeta. rewrite <- Hfilter. clear d1 rows1 Hfilter.
  rewrite Hsession. unfold push.
  destruct (upload_singleton_about
              (filter (fun d => eligible MODULE_NAME (database w1) d) rows0)
              wh loc {| world := w1; calls := calls s |}) as (new & Hnew & Habout).
  destruct (upload_inventory_data_to_shopify _ _ _) as [[out s'] r].
  exists new. split; [done|]. rewrite Forall_forall in Habout. split.
  - intros l i a ok Hin.
    destruct (Habout _ Hin) as [?|(d & _ & Hset & _)]; [done|]. by eapply Hset.
  - intros vid ok Hin.
    destruct (Habout _ Hin) as [?|(d & Hd & _ & Hfind)]; [done|].
    apply list_elem_of_filter in Hd as [He Hd].
    exists d. split_and!; [done | by apply Is_true_true | by eapply Hfind].
Qed.

(** X21. The two entry points differ by the frequency gate only. A failure
    to load the settings leaves both before anything else is asked. With
    the settings loaded, the scheduled entry does nothing when the gate
    says the run is not due, whatever the settings say; and when the gate
    says it is due, it goes on as the immediate entry does, from the world
    the gate leaves. *)
Theorem scheduled_entry_gated (s : ext_state W) :
  (forall w1 e,
      get_doc (world s) = (w1, Raise e) ->
      update_inventory_on_shopify MODULE_NAME s =
        ({| world := w1; calls := calls s |}, Raise e) /\
      update_inventory_on_shopify_now MODULE_NAME s =
        ({| world := w1; calls := calls s |}, Raise e)) /\
  (forall w1 setting w2,
      get_doc (world s) = (w1, Ok setting) ->
      need_to_run w1 = (w2, Ok false) ->
      update_inventory_on_shopify MODULE_NAME s =
        ({| world := w2; calls := calls s |}, Ok tt)) /\
  (forall w1 setting w2,
      get_doc (world s) = (w1, Ok setting) ->
      need_to_run w1 = (w2, Ok true) ->
      update_inventory_on_shopify MODULE_NAME s =
        _run_push_for_default_warehouse MODULE_NAME setting
          {| world := w2; calls := calls s |} /\
      update_inventory_on_shopify_now MODULE_NAME s =
        _run_push_for_default_warehouse MODULE_NAME setting
          {| world := w1; calls := calls s |}).
Proof.
  unfold update_inventory_on_shopify, update_inventory_on_shopify_now,
    mbind, M_bind, ask.
  split_and!.
  - intros w1 e ->. done.
  - intros w1 setting w2 -> Hgate. cbn. by rewrite Hgate.
  - intros w1 setting w2 -> Hgate. cbn. by rewrite Hgate.
Qed.

End OrchestratorFacts.

(** ** The theorems at concrete inputs *)

(** C2 on a row with quantities 10.7 and 3: the set call is issued, with
    quantity 7. *)
Lemma pushed_quantity_example :
  EvSet (Some 5) 11 7 true
    ∈ calls (@process_row nat demo "T" demo_map (row_pushed, start 0%nat)).1.2 /\
  (let '((d', s'), r) := @process_row nat demo "T" demo_map (row_pushed, start 0%nat) in
   exists new : list event,
     calls s' = calls (start 0%nat) ++ new /\
     forall loc item available ok,
       EvSet loc item available ok ∈ new ->
       available = cint (actual_qty row_pushed) - cint (reserved_qty row_pushed)) /\
  cint 10.7 - cint 3 = 7.
Proof.
  split_and!.
  - vm_compute. apply list_elem_of_further, list_elem_of_here.
  - exact (proj1 (@pushed_quantity_truncated nat demo "T" demo_map row_pushed (start 0%nat))).
  - exact (proj2 (proj2 (@pushed_quantity_truncated nat demo "T" demo_map row_pushed
                           (start 0%nat)))).
Defined.

(** X22 on a row whose variant the shop does not know. *)
Lemma variant_lookup_not_found_example :
  let '((d', s'), r) := @process_row nat demo "T" demo_map (row_gone, start 0%nat) in
  status d' = Some "Not Found" /\
  (exists reason, failure_reason d' = Some reason /\
                  contains reason "gone" /\ contains reason (pretty 5)) /\
  calls s' = calls (start 0%nat) ++
             [EvFind "gone" false; EvSync (ecom_item row_gone) "T" true;
              EvCommit (is_ok r)].
Proof.
  apply (@variant_lookup_not_found nat demo "T" demo_map row_gone (start 0%nat)
           5 "gone" "404 Not Found" 0%nat 0%nat); reflexivity.
Defined.

(** X23 on a row whose location the shop does not know. *)
Lemma inventory_set_not_found_example :
  let '((d', s'), r) := @process_row nat demo "T" lost_map (row_pushed, start 0%nat) in
  status d' = Some "Not Found" /\
  status d' <> Some "Failed" /\
  failure_reason d' = Some (not_found_reason (set_shopify_location_id 404 row_pushed)) /\
  (exists reason, failure_reason d' = Some reason /\
                  contains reason "v1" /\ contains reason (pretty 404)) /\
  calls s' = calls (start 0%nat) ++
             [EvFind "v1" true; EvSet (Some 404) 11 7 false;
              EvSync (ecom_item row_pushed) "T" true; EvCommit (is_ok r)].
Proof.
  apply (@inventory_set_not_found nat demo "T" lost_map row_pushed (start 0%nat)
           404 "v1" {| inventory_item_id := Some 11 |} 11 "404 Not Found"
           0%nat 0%nat 0%nat); reflexivity.
Defined.

(** C4, the claim as stated fails: the commit of the missing-variant branch
    raises after the side update of that branch has returned; the row ends
    [Failed] with the message of that exception, its sync timestamp
    updated. *)
Lemma branch_commit_failure_keeps_side_update :
  demo_map !! warehouse row_no_variant ≫= py_int = Some 5 /\
  (exists st,
      @push_row nat demo "T" (set_shopify_location_id 5 row_no_variant, start 1%nat) =
      (st, Raise (OtherException "db down"))) /\
  let '((d', s'), r) := @process_row nat demo "T" demo_map (row_no_variant, start 1%nat) in
  status d' = Some "Failed" /\
  failure_reason d' = Some "db down" /\
  EvSync (Some "E5") "T" true ∈ calls s'.
Proof.
  split_and!; [reflexivity | eexists; reflexivity |].
  vm_compute. split_and!; [reflexivity | reflexivity | apply list_elem_of_here].
Qed.

(** C4, as amended, on a row whose variant lookup fails. *)
Lemma other_exception_row_example :
  let '((d', s'), r) := @process_row nat demo "T" demo_map (row_broken, start 0%nat) in
  status d' = Some "Failed" /\
  failure_reason d' = Some "502 Bad Gateway" /\
  calls s' = calls (start 0%nat) ++ [EvFind "broken" false] ++ [EvCommit (is_ok r)] /\
  forall i t, EvSync i t true ∉ [EvFind "broken" false] ++ [EvCommit (is_ok r)].
Proof.
  apply (@other_exception_row nat demo "T" demo_map row_broken (start 0%nat)
           5 [EvFind "broken" false] "502 Bad Gateway" 0%nat).
  - reflexivity.
  - apply raised_find; reflexivity.
Defined.

(** C5 on a batch of four rows with statuses Success, Success, Failed,
    Success: one entry, [Partial Success], 75 percent. *)
Lemma log_batch_status_example :
  exists msg w r,
    @_log_batch_status nat demo demo_float logged_batch (start 0%nat) =
      ({| world := w;
          calls := calls (start 0%nat) ++ [EvLog "Partial Success" msg (is_ok r)] |}, r) /\
    (success_fraction logged_batch * 100 == 75)%Q /\
    contains msg "75.0%".
Proof.
  destruct (@log_batch_status_spec nat demo demo_float logged_batch (start 0%nat))
    as (st & msg & w & r & Hrun & Hpct & Hmsg & _ & Hpartial & _).
  exists msg, w, r.
  rewrite <- (Hpartial ltac:(by apply Exists_cons_hd)
                       ltac:(by do 2 apply Exists_cons_tl; apply Exists_cons_hd)).
  split_and!; [exact Hrun | reflexivity | exact Hmsg].
Defined.

(** C6, the claim as stated fails: the commit that ends the first row
    raises; the exception leaves the pusher, the second row is not
    processed and nothing is logged. *)
Lemma commit_failure_escapes :
  let '((out, s'), r) :=
    @upload_inventory_data_to_shopify nat demo demo_float
      [row_unmapped; row_pushed] demo_map (start 1%nat) in
  r = Raise (OtherException "db down") /\
  out = [[set_failure_reason "No numeric Shopify Location for ERP Warehouse: XX"
            (set_status "Failed" row_unmapped);
          row_pushed]] /\
  calls s' = [EvSync (Some "locked") "2024-05-01 10:00:00" false; EvCommit false].
Proof. vm_compute. split_and!; reflexivity. Qed.

(** C6, as amended, on collaborators whose local side never fails. *)
Lemma rows_never_abort_example :
  exists batch' s',
    for_each (@process_row unit steady "T" demo_map)
             [row_pushed; row_gone; row_broken; row_unmapped; row_no_variant]
             (start tt) = ((batch', s'), Ok tt) /\
    length batch' = 5%nat /\
    Forall (fun d => is_Some (status d)) batch'.
Proof.
  apply (@rows_never_abort unit steady "T" demo_map
           [row_pushed; row_gone; row_broken; row_unmapped; row_no_variant] (start tt)).
  - intros w. reflexivity.
  - intros d1 s1 d2 s2 m _. reflexivity.
Defined.



(** C8 on the example database: of the rows referring to E1 (kept), E2
    (disabled item), E3 (another integration), E5 (no item code) and to
    nothing, the first remains. *)
Lemma filter_to_flagged_items_example :
  (_filter_to_flagged_items "shopify" demo_db
     [row_pushed; row_gone; row_broken; row_no_variant; row_no_reference]).2 =
  [row_pushed] /\
  _filter_to_flagged_items "shopify" demo_db [row_no_reference] = ([], []).
Proof.
  split.
  - rewrite (proj1 (filter_to_flagged_items_spec "shopify" demo_db _)). reflexivity.
  - apply (proj2 (proj2 (filter_to_flagged_items_spec "shopify" demo_db _))). reflexivity.
Defined.

(** C9, as amended, on a run over rows of every outcome. *)
Lemma upload_in_batches_example :
  let rows := [row_pushed; row_gone; row_broken; row_unmapped; row_no_variant] in
  let run := @upload_inventory_data_to_shopify nat demo demo_float rows demo_map
               (start 0%nat) in
  exists segs,
    Forall2 (@batch_segment nat demo "2024-05-01 10:00:00" demo_map)
            (create_batch rows 50) segs /\
    calls run.1.2 = calls (start 0%nat) ++ concat segs.
Proof.
  intros rows run.
  refine (proj1 (proj2 (proj2 (proj2
            (@upload_in_batches nat demo demo_float rows demo_map (start 0%nat)))))
            run.1.1 run.1.2 _).
  vm_compute. reflexivity.
Defined.

(** ** The further properties at concrete inputs *)

(** X4 on the row that is pushed. *)
Lemma success_iff_pushed_example :
  let run := @process_row unit steady "T" demo_map (row_pushed, start tt) in
  status run.1.1 = Some "Success" <->
  exists vid item,
    calls run.1.2 = calls (start tt) ++
      [EvFind vid true;
       EvSet (shopify_location_id run.1.1) item
             (cint (actual_qty row_pushed) - cint (reserved_qty row_pushed)) true;
       EvSync (ecom_item row_pushed) "T" true;
       EvCommit true].
Proof.
  intros run.
  apply (@success_iff_pushed unit steady "T" demo_map row_pushed (start tt)
           run.1.1 run.1.2).
  vm_compute. reflexivity.
Defined.

(** X5 on the row without a variant id. *)
Lemma missing_variant_id_row_example :
  let '((d', s'), r) := @process_row unit steady "T" demo_map (row_no_variant, start tt) in
  (exists new,
      calls s' = calls (start tt) ++ new /\
      forall e, e ∈ new -> is_find e = false /\ is_set e = false) /\
  ((forall w, (@db_commit unit steady w).2 = Ok tt) ->
   r = Ok tt /\
   status d' = Some "Failed" /\
   failure_reason d' = Some "Missing variant_id in Ecommerce Item mapping." /\
   shopify_location_id d' = Some 5).
Proof.
  apply (@missing_variant_id_row unit steady "T" demo_map row_no_variant (start tt) 5).
  - vm_compute. reflexivity.
  - reflexivity.
Defined.

(** X6 on a row whose variant has no inventory item. *)
Lemma variant_without_inventory_item_row_example :
  let d := mk_row "E7" "WH" 4 1 (Some "bare") in
  let '((d', s'), r) := @process_row unit steady "T" demo_map (d, start tt) in
  (exists rest,
      calls s' = calls (start tt) ++ EvFind "bare" true :: rest /\
      forall e, e ∈ rest -> is_find e = false /\ is_set e = false) /\
  ((forall w, (@db_commit unit steady w).2 = Ok tt) ->
   r = Ok tt /\
   status d' = Some "Failed" /\
   failure_reason d' = Some ("Shopify variant " +:+ "bare" +:+ " has no inventory_item_id.") /\
   contains ("Shopify variant " +:+ "bare" +:+ " has no inventory_item_id.") "bare").
Proof.
  intros d.
  apply (@variant_without_inventory_item_row unit steady "T" demo_map d (start tt)
           5 "bare" tt {| inventory_item_id := None |}).
  - vm_compute. reflexivity.
  - reflexivity.
  - reflexivity.
  - reflexivity.
Defined.

(** X8 on a run over five rows: five commits, one log entry. *)
Lemma commits_and_log_entries_example :
  let rows := [row_pushed; row_gone; row_broken; row_unmapped; row_no_variant] in
  let run := @upload_inventory_data_to_shopify unit steady demo_float rows demo_map
               (start tt) in
  exists new,
    calls run.1.2 = calls (start tt) ++ new /\
    count is_taken_commit new = 5%nat /\
    count is_log new = 1%nat.
Proof.
  intros rows run.
  apply (@commits_and_log_entries unit steady demo_float rows demo_map (start tt)
           run.1.1 run.1.2).
  vm_compute. reflexivity.
Defined.

(** X10 on the row whose variant the shop does not know. *)
Lemma row_status_values_example :
  let run := @process_row unit steady "T" demo_map (row_gone, start tt) in
  (status run.1.1 = Some "Success" /\ failure_reason run.1.1 = failure_reason row_gone) \/
  ((status run.1.1 = Some "Failed" \/ status run.1.1 = Some "Not Found") /\
   exists reason, failure_reason run.1.1 = Some reason).
Proof.
  intros run.
  apply (@row_status_values unit steady "T" demo_map row_gone (start tt) run.1.1 run.1.2).
  vm_compute. reflexivity.
Defined.

(** X12 with the collaborators that never fail. *)
Lemma all_rows_pushed_example :
  let rows := [row_pushed; row_gone; row_broken] in
  exists out s' new,
    @upload_inventory_data_to_shopify unit ideal demo_float rows demo_map (start tt)
      = ((out, s'), Ok tt) /\
    Forall (fun d => status d = Some "Success") (concat out) /\
    calls s' = calls (start tt) ++ new /\
    forall st msg ok, EvLog st msg ok ∈ new -> st = "Success" /\ ok = true.
Proof.
  intros rows.
  apply (@all_rows_pushed unit ideal demo_float rows demo_map (start tt)).
  - intros v w. exists w, {| inventory_item_id := Some 11 |}.
    split; [reflexivity | discriminate].
  - reflexivity.
  - reflexivity.
  - reflexivity.
  - reflexivity.
  - repeat constructor; eexists; vm_compute; reflexivity.
Defined.

(** X18 on a default warehouse that the mapping does not know. *)
Lemma unresolved_default_warehouse_example :
  let setting := doc_with_warehouse (Some "XX") in
  exists msg,
    (let (w', r) :=
       @create_shopify_log (list Row) demo_shop "Error" msg "update_inventory_on_shopify"
                           (world (@start (list Row) [])) in
     @_run_push_for_default_warehouse (list Row) demo_shop demo_float demo_site "shopify"
                                      setting (@start (list Row) []) =
       ({| world := w';
           calls := calls (@start (list Row) []) ++ [EvLog "Error" msg (is_ok r)] |}, r)) /\
    (truthy (ShopifySetting.warehouse setting) = true ->
     contains msg (str_opt (ShopifySetting.warehouse setting))).
Proof.
  intros setting.
  apply (@unresolved_default_warehouse (list Row) demo_shop demo_float demo_site "shopify"
           setting (@start (list Row) [])).
  - reflexivity.
  - discriminate.
  - right. vm_compute. reflexivity.
Defined.

(** X19 on an inventory of one row, of a disabled item. *)
Lemma nothing_to_push_logged_example :
  exists msg,
    (let (w', r) :=
       @create_shopify_log (list Row) demo_shop "Success" msg "update_inventory_on_shopify"
                           [row_gone] in
     @_run_push_for_default_warehouse (list Row) demo_shop demo_float demo_site "shopify"
                                      demo_doc (start [row_gone]) =
       ({| world := w'; calls := calls (start [row_gone]) ++ [EvLog "Success" msg (is_ok r)] |},
        r)) /\
    ([row_gone] = [] -> contains msg (str_opt (ShopifySetting.warehouse demo_doc))).
Proof.
  apply (@nothing_to_push_logged (list Row) demo_shop demo_float demo_site "shopify"
           demo_doc (start [row_gone]) 5 [row_gone] [row_gone]).
  - reflexivity.
  - discriminate.
  - vm_compute. reflexivity.
  - reflexivity.
  - repeat constructor.
Defined.

(** X20 on an inventory of two rows, one of them of a flagged item. *)
Lemma pushes_flagged_rows_to_default_location_example :
  let rows0 := [row_pushed; row_gone] in
  exists new,
    calls (@_run_push_for_default_warehouse (list Row) demo_shop demo_float demo_site
             "shopify" demo_doc (start rows0)).1 = calls (start rows0) ++ new /\
    (forall l i a ok, EvSet l i a ok ∈ new -> l = Some 5) /\
    (forall vid ok, EvFind vid ok ∈ new ->
       exists d, d ∈ rows0 /\
                 eligible "shopify" (@database (list Row) demo_site rows0) d = true /\
                 variant_id d = Some vid).
Proof.
  intros rows0.
  apply (@pushes_flagged_rows_to_default_location (list Row) demo_shop demo_float demo_site
           "shopify" demo_doc (start rows0) 5 rows0 rows0).
  - reflexivity.
  - reflexivity.
  - discriminate.
  - vm_compute. reflexivity.
  - reflexivity.
Defined.

(** X21 on a site whose gate says the run is not due. *)
Lemma scheduled_entry_gated_example :
  @update_inventory_on_shopify (list Row) demo_shop demo_float demo_site "shopify"
    (@start (list Row) [])
  = ({| world := []; calls := calls (@start (list Row) []) |}, Ok tt).
Proof.
  apply (proj1 (proj2 (@scheduled_entry_gated (list Row) demo_shop demo_float demo_site
                         "shopify" (@start (list Row) [])))
           [] demo_doc []).
  - reflexivity.
  - reflexivity.
Defined.

(** ** Where the code and the claims part *)

(** C3, the code against the claim: the lookup of the variant raises
    not-found and the sync-status update that the handler issues raises in
    its turn. Nothing catches that exception: the row is left without
    status, without failure reason and without commit, and the run ends
    there, the next row unprocessed and the batch unlogged. *)
Theorem lookup_miss_update_raises :
  (let '((d', s'), r) :=
     @process_row nat demo "T" demo_map (row_gone_locked, start 0%nat) in
   r = Raise (OtherException "row locked") /\
   status d' = None /\ failure_reason d' = None /\
   calls s' = [EvFind "gone" false; EvSync (Some "locked") "T" false]) /\
  (let '((out, s'), r) :=
     @upload_inventory_data_to_shopify nat demo demo_float
       [row_gone_locked; row_pushed] demo_map (start 0%nat) in
   r = Raise (OtherException "row locked") /\
   status <$> concat out = [None; None] /\
   calls s' = [EvFind "gone" false;
               EvSync (Some "locked") "2024-05-01 10:00:00" false]).
Proof. vm_compute. split_and!; reflexivity. Qed.

(** C10, the code against the claim: the inventory-level set call raises
    not-found and the sync-status update that the handler issues raises in
    its turn. The row is left by that exception without status, without
    failure reason and without commit, and the run ends there. *)
Theorem set_miss_update_raises :
  (let '((d', s'), r) :=
     @process_row nat demo "T" lost_map (row_set_locked, start 0%nat) in
   r = Raise (OtherException "row locked") /\
   status d' = None /\ failure_reason d' = None /\
   calls s' = [EvFind "v1" true; EvSet (Some 404) 11 3 false;
               EvSync (Some "locked") "T" false]) /\
  (let '((out, s'), r) :=
     @upload_inventory_data_to_shopify nat demo demo_float
       [row_set_locked; row_pushed] lost_map (start 0%nat) in
   r = Raise (OtherException "row locked") /\
   status <$> concat out = [None; None] /\
   calls s' = [EvFind "v1" true; EvSet (Some 404) 11 3 false;
               EvSync (Some "locked") "2024-05-01 10:00:00" false]).
Proof. vm_compute. split_and!; reflexivity. Qed.

(** C9, the claim as stated fails. In a run that returns, the commit is
    called twice for the one row: the commit of the missing-variant branch
    raises inside the [try] block, the handler marks the row, and the
    commit that ends the loop body follows. In a run whose commit raises
    outside the [try] block, no commit takes effect, the second row is not
    processed and the batch logger is not called. *)
Lemma commit_not_once_per_row :
  (let '((out, s'), r) :=
     @upload_inventory_data_to_shopify nat demo demo_float
       [row_no_variant] demo_map (start 1%nat) in
   r = Ok tt /\
   filter (fun e => is_log e = false) (calls s') =
     [EvSync (Some "E5") "2024-05-01 10:00:00" true; EvCommit false; EvCommit true] /\
   count is_commit (calls s') = 2%nat) /\
  (let '((out, s'), r) :=
     @upload_inventory_data_to_shopify nat demo demo_float
       [row_unmapped; row_pushed] demo_map (start 1%nat) in
   r = Raise (OtherException "db down") /\
   count is_taken_commit (calls s') = 0%nat /\
   count is_log (calls s') = 0%nat /\
   status <$> concat out = [Some "Failed"; None]).
Proof. vm_compute. split_and!; reflexivity. Qed.
